(** * complex-pdf-rag: orchestration, context window and metadata merge

    A shallow embedding of the pipeline core of the repository
    (orchestrator, context-window builder, metadata merge engine, cost
    ledger) together with the properties its specification states about it.

    Python values that come out of [json.load] are modelled by the type
    [json]; a Python [dict] is an insertion-ordered association list; a
    Python function that may raise returns a value of type [res]; a Python
    [str] is held as its UTF-8 encoding. *)

From Stdlib Require Import ZArith NArith List String Ascii Bool Lia Permutation.
From Stdlib Require Import DecimalString.
Import ListNotations.
Local Open Scope string_scope.
Local Open Scope Z_scope.

Set Implicit Arguments.
Set Warnings "-register-all".

(* ================================================================== *)
(** * Part I: the model                                                 *)
(* ================================================================== *)

(** ** Text

    A Python [str] is a sequence of code points.  A [string] holds its
    UTF-8 encoding, byte by byte: equality, concatenation, prefixes and
    suffixes of the text are those of the bytes, and what [str] decides
    character by character ([str.strip], [\d] in a pattern, [len],
    iteration) is decided here on the encodings of the characters. *)

Module Unicode.

(** The UTF-8 encoding of a code point. *)
Definition utf8 (cp : N) : string :=
  (if cp <? 128 then String (ascii_of_N cp) ""
   else if cp <? 2048 then
     String (ascii_of_N (192 + cp / 64))
       (String (ascii_of_N (128 + cp mod 64)) "")
   else if cp <? 65536 then
     String (ascii_of_N (224 + cp / 4096))
       (String (ascii_of_N (128 + (cp / 64) mod 64))
          (String (ascii_of_N (128 + cp mod 64)) ""))
   else
     String (ascii_of_N (240 + cp / 262144))
       (String (ascii_of_N (128 + (cp / 4096) mod 64))
          (String (ascii_of_N (128 + (cp / 64) mod 64))
             (String (ascii_of_N (128 + cp mod 64)) ""))))%N.

(** The characters for which [str.isspace] holds, which are those that
    [str.strip] removes: the ASCII controls 0x09-0x0d and 0x1c-0x1f,
    the space, U+0085, U+00A0, U+1680, U+2000-U+200A, U+2028, U+2029,
    U+202F, U+205F and U+3000. *)
Definition whitespace_code_points : list N :=
  [ 9; 10; 11; 12; 13; 28; 29; 30; 31; 32; 133; 160; 5760; 8192; 8193;
    8194; 8195; 8196; 8197; 8198; 8199; 8200; 8201; 8202; 8232; 8233;
    8239; 8287; 12288 ]%N.

Definition whitespace : list string :=
  Eval vm_compute in map utf8 whitespace_code_points.

(** The characters that [\d] matches in a [str] pattern: the decimal
    digits of Unicode (category Nd).  They come in runs of ten, zero to
    nine; the list holds the zero of each run, as the character database of
    CPython 3.11 (Unicode 14.0) has them. *)
Definition decimal_zeros : list N :=
  [ 48; 1632; 1776; 1984; 2406; 2534; 2662; 2790; 2918; 3046; 3174;
    3302; 3430; 3558; 3664; 3792; 3872; 4160; 4240; 6112; 6160; 6470;
    6608; 6784; 6800; 6992; 7088; 7232; 7248; 42528; 43216; 43264;
    43472; 43504; 43600; 44016; 65296; 66720; 68912; 69734; 69872;
    69942; 70096; 70384; 70736; 70864; 71248; 71360; 71472; 71904;
    72016; 72784; 73040; 73120; 92768; 92864; 93008; 120782; 120792;
    120802; 120812; 120822; 123200; 123632; 125264; 130032 ]%N.

Definition decimal_digits : list string :=
  Eval vm_compute in
    flat_map (fun zero => map (fun i => utf8 (zero + N.of_nat i)) (seq 0 10))
             decimal_zeros.

(** [s] without the prefix [p], when it starts with it. *)
Fixpoint strip_prefix (p s : string) : option string :=
  match p with
  | EmptyString => Some s
  | String c p' =>
      match s with
      | EmptyString => None
      | String c' s' => if Ascii.eqb c c' then strip_prefix p' s' else None
      end
  end.

(** The character of [tokens] that [s] starts with, and what follows
    it. *)
Fixpoint first_prefix (tokens : list string) (s : string)
  : option (string * string) :=
  match tokens with
  | [] => None
  | w :: others =>
      match strip_prefix w s with
      | Some rest => Some (w, rest)
      | None => first_prefix others s
      end
  end.

Definition starts_with_token (tokens : list string) (s : string) : bool :=
  match first_prefix tokens s with Some _ => true | None => false end.

(** The longest run of characters of [tokens] at the head of [s], and
    what follows it.  A character takes at least one byte, so the length of
    [s] bounds the number of turns. *)
Fixpoint span_fuel (tokens : list string) (fuel : nat) (s : string)
  : string * string :=
  match fuel with
  | O => (EmptyString, s)
  | S fuel' =>
      match first_prefix tokens s with
      | Some (w, rest) =>
          let (run, rest') := span_fuel tokens fuel' rest in (w ++ run, rest')
      | None => (EmptyString, s)
      end
  end.

Definition span_tokens (tokens : list string) (s : string) : string * string :=
  span_fuel tokens (String.length s) s.

Definition all_tokens (tokens : list string) (s : string) : bool :=
  String.eqb (snd (span_tokens tokens s)) "".

(** Text made of characters of [tokens] only. *)
Inductive token_run (tokens : list string) : string -> Prop :=
| run_empty : token_run tokens ""
| run_more w run :
    In w tokens -> token_run tokens run -> token_run tokens (w ++ run).

(** [w] and [s] agree as far as both go: one is the beginning of the
    other. *)
Fixpoint compatible (w s : string) : bool :=
  match w, s with
  | String a w', String b s' => Ascii.eqb a b && compatible w' s'
  | _, _ => true
  end.

(** [s] does not start with a character of [tokens], nor with the first
    bytes of one. *)
Definition clear_of (tokens : list string) (s : string) : bool :=
  forallb (fun w => negb (compatible w s)) tokens.

(** No encoding in [tokens] is empty or the beginning of another one. *)
Definition prefix_code (tokens : list string) : bool :=
  negb (existsb (String.eqb "") tokens) &&
  forallb (fun p => forallb (fun q => String.eqb p q || negb (compatible p q))
                            tokens)
          tokens.

(** The bytes of [s] from the last to the first; scanning a text from its
    end is scanning its reversal for reversed encodings. *)
Definition reverse (s : string) : string :=
  string_of_list_ascii (rev (list_ascii_of_string s)).

(** The characters of a text: a byte of the form 10xxxxxx continues the
    character begun before it. *)
Definition is_continuation (c : ascii) : bool :=
  ((128 <=? N_of_ascii c) && (N_of_ascii c <? 192))%N.

Definition starts_with_continuation (s : string) : bool :=
  match s with
  | String c _ => is_continuation c
  | EmptyString => false
  end.

Fixpoint characters (s : string) : list string :=
  match s with
  | EmptyString => []
  | String c s' =>
      match characters s' with
      | following :: others =>
          if starts_with_continuation s' then String c following :: others
          else String c EmptyString :: following :: others
      | [] => [String c EmptyString]
      end
  end.

End Unicode.

Export Unicode.

(** ** Python values, exceptions, dictionaries *)

Module Py.

(** File-system paths ([pathlib.Path]): the list of components, the
    operator [/] appends one. *)
Definition path := list string.

Definition path_div (p : path) (name : string) : path := (p ++ [name])%list.

(** The exception classes that the modelled code raises or lets through.
    Where the source builds the message with an f-string, the constructor
    carries the interpolated data. *)
Inductive exn : Type :=
| TypeError
| AttributeError
| JSONDecodeError
| FileNotFoundError (p : path)
| IsADirectoryError (p : path)
| KeyError (key : string)
| ValueError (msg : string)
| InvalidStepNames (invalid valid : list string)
| LitellmConfigError (msg : string)
| OtherException (msg : string).

Inductive res (A : Type) : Type :=
| Ok (a : A)
| Raise (e : exn).
Arguments Ok {A} a.
Arguments Raise {A} e.

Definition bind {A B} (m : res A) (k : A -> res B) : res B :=
  match m with
  | Ok a => k a
  | Raise e => Raise e
  end.

Fixpoint mapM {A B} (f : A -> res B) (l : list A) : res (list B) :=
  match l with
  | [] => Ok []
  | x :: xs =>
      bind (f x) (fun y => bind (mapM f xs) (fun ys => Ok (y :: ys)))
  end.

(** JSON documents as [json.load] returns them.  Numbers are integers:
    the records handled here carry identifiers, flags, counts and lists of
    strings. *)
Inductive json : Type :=
| JNull
| JBool (b : bool)
| JNum (n : Z)
| JStr (s : string)
| JArr (l : list json)
| JObj (d : list (string * json)).

Definition pydict := list (string * json).

(** [d.get(k)] as an option, [d.get(k, default)], [d[k] = v].
    Assignment to an existing key keeps the key's position, a new key is
    appended (insertion order, as [json.dump] writes it). *)
Fixpoint dict_get (k : string) (d : pydict) : option json :=
  match d with
  | [] => None
  | (k', v) :: d' => if String.eqb k k' then Some v else dict_get k d'
  end.

Definition dict_get_default (k : string) (default : json) (d : pydict) : json :=
  match dict_get k d with Some v => v | None => default end.

Fixpoint dict_set (k : string) (v : json) (d : pydict) : pydict :=
  match d with
  | [] => [(k, v)]
  | (k', v') :: d' =>
      if String.eqb k k' then (k', v) :: d' else (k', v') :: dict_set k v d'
  end.

(** [d.update(other)]: the keys of [other] are assigned in order. *)
Definition dict_update (d other : pydict) : pydict :=
  fold_left (fun acc kv => dict_set (fst kv) (snd kv) acc) other d.

(** Truth value of an object ([if x:], [not x]). *)
Definition truthy (v : json) : bool :=
  match v with
  | JNull => false
  | JBool b => b
  | JNum n => negb (n =? 0)
  | JStr s => negb (String.eqb s "")
  | JArr l => match l with [] => false | _ => true end
  | JObj d => match d with [] => false | _ => true end
  end.

Definition chars (s : string) : list json := map JStr (characters s).

(** Iteration ([for x in v], [set(v)]): a list yields its items, a dict
    its keys, a string its characters; other values are not iterable. *)
Definition py_iter (v : json) : res (list json) :=
  match v with
  | JArr l => Ok l
  | JObj d => Ok (map (fun kv => JStr (fst kv)) d)
  | JStr s => Ok (chars s)
  | JNull | JBool _ | JNum _ => Raise TypeError
  end.

(** [len(v)]. *)
Definition py_len (v : json) : res Z :=
  match v with
  | JArr l => Ok (Z.of_nat (List.length l))
  | JObj d => Ok (Z.of_nat (List.length d))
  | JStr s => Ok (Z.of_nat (List.length (characters s)))
  | JNull | JBool _ | JNum _ => Raise TypeError
  end.

(** Hashable values and the key under which [dict] and [set] identify
    them: [True == 1] and [False == 0]; lists and dicts are unhashable. *)
Inductive hkey : Type :=
| KNone
| KInt (n : Z)
| KStr (s : string).

Definition hkey_eqb (a b : hkey) : bool :=
  match a, b with
  | KNone, KNone => true
  | KInt n, KInt m => n =? m
  | KStr s, KStr t => String.eqb s t
  | _, _ => false
  end.

Definition hash_key (v : json) : res hkey :=
  match v with
  | JNull => Ok KNone
  | JBool b => Ok (KInt (if b then 1 else 0))
  | JNum n => Ok (KInt n)
  | JStr s => Ok (KStr s)
  | JArr _ | JObj _ => Raise TypeError
  end.

(** A Python [set] under construction: the members in insertion order,
    each with its key; adding a member that is already present keeps the
    old one. *)
Definition pyset := list (hkey * json).

Definition set_mem (k : hkey) (s : pyset) : bool :=
  existsb (fun e => hkey_eqb k (fst e)) s.

Definition set_add (s : pyset) (e : hkey * json) : pyset :=
  if set_mem (fst e) s then s else (s ++ [e])%list.

Definition set_union (a b : pyset) : pyset := fold_left set_add b a.

(** [set(v)]. *)
Definition py_set (v : json) : res pyset :=
  bind (py_iter v) (fun items =>
  bind (mapM (fun x => bind (hash_key x) (fun k => Ok (k, x))) items) (fun es =>
  Ok (fold_left set_add es [])))%list.

(** The order in which a set is iterated is fixed by the interpreter
    (hash values, table size), not by the program: it is some rearrangement
    of the members. *)
Record set_iteration : Type := {
  iteration_order : list json -> list json;
  iteration_order_perm : forall l, Permutation (iteration_order l) l
}.

(** [list(s)]. *)
Definition py_list_of_set (ord : set_iteration) (s : pyset) : json :=
  JArr (iteration_order ord (map snd s)).

End Py.

Export Py.

Declare Scope py_scope.
Notation "x <- m ;; k" := (bind m (fun x => k))
  (at level 61, m at next level, right associativity) : py_scope.
Local Open Scope py_scope.

(** ** The artifact store and the services outside the core *)

Module Store.

(** The file system as the code observes it: what is at a path. *)
Inductive node : Type :=
| Dir
| File (content : string).

Definition filesystem := path -> option node.

(** [Path.exists()]. *)
Definition path_exists (fs : filesystem) (p : path) : bool :=
  match fs p with Some _ => true | None => false end.

(** [open(p, ...)] for reading, followed by [f.read()]: the bytes of the
    file. *)
Definition open_read (fs : filesystem) (p : path) : res string :=
  match fs p with
  | Some (File content) => Ok content
  | Some Dir => Raise (IsADirectoryError p)
  | None => Raise (FileNotFoundError p)
  end.

(** The library functions the core calls: [base64.b64encode] (decoded as
    text), [json.loads] and [json.dumps], and the decoding that a file
    opened in text mode applies to its bytes (the platform's encoding; it
    raises [UnicodeDecodeError] on bytes that are not text). *)
Class Codec : Type := {
  b64encode : string -> string;
  json_loads : string -> res json;
  json_dumps : json -> string;
  decode_text : string -> res string
}.

(** Universal newlines: a file read in text mode gives a line feed for
    CR LF and for a lone CR. *)
Definition cr : ascii := ascii_of_nat 13.
Definition lf : ascii := ascii_of_nat 10.

Fixpoint universal_newlines (s : string) : string :=
  match s with
  | EmptyString => EmptyString
  | String c s' =>
      if Ascii.eqb c cr then
        match s' with
        | String c' s'' =>
            if Ascii.eqb c' lf then String lf (universal_newlines s'')
            else String lf (universal_newlines s')
        | EmptyString => String lf EmptyString
        end
      else String c (universal_newlines s')
  end.

(** [open(p, "r")] followed by [f.read()]: the text of the file. *)
Definition read_text {codec : Codec} (fs : filesystem) (p : path) : res string :=
  bind (open_read fs p) (fun content =>
  bind (decode_text content) (fun text =>
  Ok (universal_newlines text))).

(** [str(n)] inside an f-string. *)
Definition str_of_int (n : Z) : string := NilZero.string_of_int (Z.to_int n).

End Store.

Export Store.

(** ** core/utils.py *)

Module Utils.

Section WithCodec.
Context {codec : Codec}.

Definition encode_image_to_data_uri (fs : filesystem) (image_path : path) : res string :=
  content <- open_read fs image_path ;;
  Ok ("data:image/png;base64," ++ b64encode content).

Definition read_json_file (fs : filesystem) (json_path : path) : res string :=
  text <- read_text fs json_path ;;
  v <- json_loads text ;;
  Ok (json_dumps (JStr (json_dumps v))).

Definition read_text_file (fs : filesystem) (text_path : path) : res string :=
  read_text fs text_path.

(** [json.load(f)] on a file opened with [open(p, "r")]. *)
Definition load_json (fs : filesystem) (p : path) : res json :=
  text <- read_text fs p ;;
  json_loads text.

(** Method lookup on a loaded value: [.get] and [.update] exist on dicts
    only; [.copy] exists on dicts and lists, so that a value that passes
    [.copy()] and fails at [.update] fails with the same exception. *)
Definition as_dict (v : json) : res pydict :=
  match v with
  | JObj d => Ok d
  | _ => Raise AttributeError
  end.

(** Lines 58-81 of [enhance_context_metadata]: the merge itself, in the
    order in which the source evaluates it: the three [.get] on the basic
    metadata, the copy, the lookup of [.update], then the dict literal with
    its calls of [len]. *)
Definition enhance_flags (context_metadata basic_metadata : json) : res pydict :=
  basic <- as_dict basic_metadata ;;
  let tables := dict_get_default "tables" (JArr []) basic in
  let figures := dict_get_default "figures" (JArr []) basic in
  let text_blocks := dict_get_default "text_blocks" (JArr []) basic in
  enhanced_metadata <- as_dict context_metadata ;;
  n_tables <- py_len tables ;;
  n_figures <- py_len figures ;;
  n_text_blocks <- py_len text_blocks ;;
  Ok (dict_update enhanced_metadata
        [ ("has_tables", JBool (0 <? n_tables));
          ("has_figures", JBool (0 <? n_figures));
          ("has_text_blocks", JBool (0 <? n_text_blocks));
          ("table_count", JNum n_tables);
          ("figure_count", JNum n_figures);
          ("text_block_count", JNum n_text_blocks);
          ("content_summary",
            JObj [ ("tables", tables);
                   ("figures", figures);
                   ("text_blocks", text_blocks) ]) ]).

Definition enhance_context_metadata (fs : filesystem)
    (context_metadata_path basic_metadata_path : path) : res pydict :=
  context_metadata <- load_json fs context_metadata_path ;;
  basic_metadata <- load_json fs basic_metadata_path ;;
  enhance_flags context_metadata basic_metadata.

End WithCodec.

End Utils.

(** ** extraction/metadata/extract_image_metadata.py *)

Module ImageMetadata.

(** *** The pattern [(?:figure|image)-(\d+)-(\d+)] under [re.match]

    [re.match] anchors at the start of the string only.  Each [\d+] is
    greedy and is followed by a character that is not a digit, so it takes
    the longest run of digits.  The pattern is a [str] pattern: [\d] is any
    decimal digit of Unicode. *)

(** The longest run of digits at the head of [s], and what follows it. *)
Definition span_digits (s : string) : string * string :=
  span_tokens decimal_digits s.

(** [-(\d+)-(\d+)] on what follows the alternation; the two groups. *)
Definition match_page_index (s : string) : option (string * string) :=
  match strip_prefix "-" s with
  | None => None
  | Some s1 =>
      let (page_num, s2) := span_digits s1 in
      if String.eqb page_num "" then None else
      match strip_prefix "-" s2 with
      | None => None
      | Some s3 =>
          let (index, _) := span_digits s3 in
          if String.eqb index "" then None else Some (page_num, index)
      end
  end.

(** One alternative of [(?:figure|image)] followed by the rest of the
    pattern. *)
Definition match_alternative (kind s : string) : option (string * string) :=
  match strip_prefix kind s with
  | Some rest => match_page_index rest
  | None => None
  end.

Definition re_match_element_id (element_id : string) : option (string * string) :=
  match match_alternative "figure" element_id with
  | Some groups => Some groups
  | None => match_alternative "image" element_id
  end.

(** *** The lookup [image_metadata_map]

    A dict from the records' [image_id] (any hashable value) to the record;
    a later record with the same id replaces the earlier one. *)

Definition image_map := list (hkey * pydict).

Fixpoint map_get (k : hkey) (m : image_map) : option pydict :=
  match m with
  | [] => None
  | (k', v) :: m' => if hkey_eqb k k' then Some v else map_get k m'
  end.

Fixpoint map_set (k : hkey) (v : pydict) (m : image_map) : image_map :=
  match m with
  | [] => [(k, v)]
  | (k', v') :: m' =>
      if hkey_eqb k k' then (k', v) :: m' else (k', v') :: map_set k v m'
  end.

(** Lines 38-41. *)
Fixpoint build_image_metadata_map (items : list json) (acc : image_map)
  : res image_map :=
  match items with
  | [] => Ok acc
  | img_meta :: rest =>
      match img_meta with
      | JObj record =>
          let image_id := dict_get_default "image_id" (JStr "") record in
          k <- hash_key image_id ;;
          build_image_metadata_map rest (map_set k record acc)
      | _ => Raise AttributeError
      end
  end.

(** Lines 63-67: the first of the candidate ids that is in the map. *)
Fixpoint first_match (possible_image_ids : list string) (m : image_map)
  : option pydict :=
  match possible_image_ids with
  | [] => None
  | possible_id :: rest =>
      match map_get (KStr possible_id) m with
      | Some record => Some record
      | None => first_match rest m
      end
  end.

(** [if matched.get(field): element[field] = matched[field]]. *)
Definition copy_if_truthy (field : string) (matched element : pydict) : pydict :=
  match dict_get field matched with
  | Some v => if truthy v then dict_set field v element else element
  | None => element
  end.

(** [element[field] = list(set(element.get(field, [])).union(set(matched.get(field, []))))].
    The iteration order of the union may depend on the two sequences it was
    built from; they are passed to [iteration_order] beside the members. *)
Record union_order : Type := {
  union_iteration : json -> json -> set_iteration
}.

Definition merge_unique (ord : union_order) (field : string)
    (matched element : pydict) : res pydict :=
  let old_items := dict_get_default field (JArr []) element in
  let new_items := dict_get_default field (JArr []) matched in
  existing <- py_set old_items ;;
  new <- py_set new_items ;;
  Ok (dict_set field
        (py_list_of_set (union_iteration ord old_items new_items)
                        (set_union existing new))
        element).

(** Lines 72-113: the fields written into a matched element. *)
Definition apply_image_metadata (ord : union_order)
    (matched element : pydict) : res pydict :=
  let element :=
    dict_set "image_type" (dict_get_default "image_type" (JStr "") matched) element in
  let element :=
    dict_set "natural_description"
             (dict_get_default "natural_description" (JStr "") matched) element in
  let element := copy_if_truthy "title" matched element in
  let element := copy_if_truthy "summary" matched element in
  element <- merge_unique ord "keywords" matched element ;;
  element <- merge_unique ord "entities" matched element ;;
  let element := copy_if_truthy "dates" matched element in
  let element := copy_if_truthy "locations" matched element in
  let element := copy_if_truthy "model_name" matched element in
  let element := copy_if_truthy "component_type" matched element in
  let element := copy_if_truthy "model_applicability" matched element in
  let element := copy_if_truthy "application_context" matched element in
  let element := copy_if_truthy "related_tables" matched element in
  Ok element.

(** [element.get("type") != "figure"] is false exactly for the string
    ["figure"]. *)
Definition is_figure (type : option json) : bool :=
  match type with
  | Some (JStr s) => String.eqb s "figure"
  | _ => false
  end.

(** Lines 44-70: one turn of the loop over [content_elements]; [continue]
    is the element returned as it is. *)
Definition enhance_element (ord : union_order) (image_metadata_map : image_map)
    (element : json) : res json :=
  match element with
  | JObj fields =>
      if is_figure (dict_get "type" fields) then
          match dict_get_default "element_id" (JStr "") fields with
          | JStr element_id =>
              match re_match_element_id element_id with
              | None => Ok element
              | Some (page_num, index) =>
                  let possible_image_ids :=
                    [ "image-" ++ page_num ++ "-" ++ index;
                      "figure-" ++ page_num ++ "-" ++ index ] in
                  match first_match possible_image_ids image_metadata_map with
                  | None => Ok element
                  | Some [] => Ok element
                  | Some matched_image_meta =>
                      fields' <- apply_image_metadata ord matched_image_meta fields ;;
                      Ok (JObj fields')
                  end
              end
          | _ => Raise TypeError
          end
      else Ok element
  | _ => Raise AttributeError
  end.

Definition enhance_content_elements_with_image_metadata (ord : union_order)
    (context_metadata : pydict) : res pydict :=
  match dict_get "image_metadata" context_metadata with
  | None => Ok context_metadata
  | Some image_metadata =>
      if negb (truthy image_metadata) then Ok context_metadata else
      match dict_get "content_elements" context_metadata with
      | None => Ok context_metadata
      | Some content_elements =>
          records <- py_iter image_metadata ;;
          image_metadata_map <- build_image_metadata_map records [] ;;
          elements <- py_iter content_elements ;;
          elements' <- mapM (enhance_element ord image_metadata_map) elements ;;
          match content_elements with
          | JArr _ =>
              Ok (dict_set "content_elements" (JArr elements') context_metadata)
          | _ => Ok context_metadata
          end
      end
  end.

End ImageMetadata.

(** ** indexing/metadata/extract_page_context.py *)

Module PageContextBuilder.

Record PageData : Type := {
  page_number : Z;
  image_path : path;
  image_data_uri : string;
  metadata_path : path;
  metadata_content : string;
  text_path : path;
  text_content : string
}.

Record PageContext : Type := {
  previous_page : option PageData;
  current_page : PageData;
  next_page : option PageData
}.

Section WithCodec.
Context {codec : Codec}.

Definition page_dir_of (pdf_base_path : path) (n : Z) : path :=
  path_div pdf_base_path ("page_" ++ str_of_int n).

Definition image_path_of (pdf_base_path : path) (n : Z) : path :=
  path_div (page_dir_of pdf_base_path n) ("page_" ++ str_of_int n ++ "_full.png").

Definition metadata_path_of (pdf_base_path : path) (n : Z) : path :=
  path_div (page_dir_of pdf_base_path n) ("metadata_page_" ++ str_of_int n ++ ".json").

Definition text_path_of (pdf_base_path : path) (n : Z) : path :=
  path_div (path_div (page_dir_of pdf_base_path n) "text")
           ("page_" ++ str_of_int n ++ "_text.txt").

(** The [PageData(...)] constructor call that the source writes out three
    times (lines 69-81, 92-104, 114-126), for page [n]; the arguments are
    evaluated in the order of the call. *)
Definition load_page_data (fs : filesystem) (pdf_base_path : path) (n : Z)
  : res PageData :=
  uri <- Utils.encode_image_to_data_uri fs (image_path_of pdf_base_path n) ;;
  metadata <-
    (if path_exists fs (metadata_path_of pdf_base_path n)
     then Utils.read_json_file fs (metadata_path_of pdf_base_path n)
     else Ok "{}") ;;
  text <-
    (if path_exists fs (text_path_of pdf_base_path n)
     then Utils.read_text_file fs (text_path_of pdf_base_path n)
     else Ok "") ;;
  Ok {| page_number := n;
        image_path := image_path_of pdf_base_path n;
        image_data_uri := uri;
        metadata_path := metadata_path_of pdf_base_path n;
        metadata_content := metadata;
        text_path := text_path_of pdf_base_path n;
        text_content := text |}.

Definition get_page_context (fs : filesystem) (page_number : Z)
    (pdf_base_path : path) : res PageContext :=
  if page_number <? 1 then Raise (ValueError "Page number must be at least 1")
  else
    let current_page_dir := page_dir_of pdf_base_path page_number in
    if negb (path_exists fs current_page_dir)
    then Raise (FileNotFoundError current_page_dir)
    else
      current <- load_page_data fs pdf_base_path page_number ;;
      previous <-
        (if 1 <? page_number then
           if path_exists fs (page_dir_of pdf_base_path (page_number - 1))
           then p <- load_page_data fs pdf_base_path (page_number - 1) ;; Ok (Some p)
           else Ok None
         else Ok None) ;;
      next <-
        (if path_exists fs (page_dir_of pdf_base_path (page_number + 1))
         then p <- load_page_data fs pdf_base_path (page_number + 1) ;; Ok (Some p)
         else Ok None) ;;
      Ok {| previous_page := previous; current_page := current; next_page := next |}.

(** The placeholder that [extract_metadata_with_context] (lines 158-185)
    puts in the place of an absent neighbour. *)
Definition placeholder_page (pdf_base_path : path) (n : Z) : PageData :=
  {| page_number := n;
     image_path := image_path_of pdf_base_path n;
     image_data_uri := "";
     metadata_path := metadata_path_of pdf_base_path n;
     metadata_content := "{}";
     text_path := text_path_of pdf_base_path n;
     text_content := "" |}.

End WithCodec.

End PageContextBuilder.

(** ** core/llm/litellm_client.py *)

Module Llm.

(** Token usage of a response; a missing entry reads as 0
    ([usage.get("prompt_tokens", 0)]). *)
Record Usage : Type := {
  usage_prompt_tokens : option Z;
  usage_completion_tokens : option Z;
  usage_total_tokens : option Z
}.

Definition no_usage : Usage :=
  {| usage_prompt_tokens := None;
     usage_completion_tokens := None;
     usage_total_tokens := None |}.

(** A response of the model service: its text and its usage record
    ([response.get("usage", {})]). *)
Record Response : Type := {
  content : string;
  usage : option Usage
}.

(** The service itself ([litellm.completion], [litellm.completion_cost]),
    the request it receives and Python's floating-point numbers, which the
    ledger only adds up. *)
Class Service : Type := {
  float : Type;
  float_zero : float;
  float_add : float -> float -> float;
  messages : Type;
  options : Type;
  provider : Type;
  completion : provider -> string -> messages -> options -> res Response * provider;
  completion_cost : Response -> res float
}.

Section WithService.
Context {service : Service}.

Record BreakdownEntry : Type := {
  entry_call_type : string;
  entry_model : string;
  entry_cost : float;
  entry_prompt_tokens : Z;
  entry_completion_tokens : Z;
  entry_total_tokens : Z
}.

Record CostTracker : Type := {
  total_cost : float;
  total_prompt_tokens : Z;
  total_completion_tokens : Z;
  total_tokens : Z;
  call_count : Z;
  cost_breakdown : list BreakdownEntry
}.

(** [CostTracker.__init__] and [CostTracker.reset] assign the same
    values. *)
Definition init : CostTracker :=
  {| total_cost := float_zero;
     total_prompt_tokens := 0;
     total_completion_tokens := 0;
     total_tokens := 0;
     call_count := 0;
     cost_breakdown := [] |}.

Definition reset (self : CostTracker) : CostTracker := init.

Definition or_zero (v : option Z) : Z :=
  match v with Some n => n | None => 0 end.

(** [CostTracker.add_call]: the body is in a [try]; when the cost cannot
    be computed the [except] branch logs a warning and nothing has been
    assigned yet. *)
Definition add_call (self : CostTracker) (response : Response)
    (model_name call_type : string) : CostTracker :=
  match completion_cost response with
  | Raise _ => self
  | Ok cost =>
      let u := match usage response with Some u => u | None => no_usage end in
      let prompt := or_zero (usage_prompt_tokens u) in
      let completion := or_zero (usage_completion_tokens u) in
      let total := or_zero (usage_total_tokens u) in
      {| total_cost := float_add (total_cost self) cost;
         total_prompt_tokens := total_prompt_tokens self + prompt;
         total_completion_tokens := total_completion_tokens self + completion;
         total_tokens := total_tokens self + total;
         call_count := call_count self + 1;
         cost_breakdown :=
           (cost_breakdown self ++
            [ {| entry_call_type := call_type;
                 entry_model := model_name;
                 entry_cost := cost;
                 entry_prompt_tokens := prompt;
                 entry_completion_tokens := completion;
                 entry_total_tokens := total |} ])%list |}
  end.

Definition get_summary (self : CostTracker) : CostTracker := self.

(** The client: its default model, the ledger it owns and the state of
    the service behind it. *)
Record LitellmClient : Type := {
  model_name : option string;
  cost_tracker : CostTracker;
  backend : provider
}.

Definition with_tracker (self : LitellmClient) (t : CostTracker) (b : provider)
  : LitellmClient :=
  {| model_name := model_name self; cost_tracker := t; backend := b |}.

(** [model_name or self.model_name]: the first operand unless it is
    [None] or empty. *)
Definition choose_model (arg default : option string) : option string :=
  match arg with
  | Some m => if String.eqb m "" then default else Some m
  | None => default
  end.

Definition chat (self : LitellmClient) (msgs : messages)
    (model_name_arg : option string) (opts : options) (call_type : string)
  : res Response * LitellmClient :=
  match choose_model model_name_arg (model_name self) with
  | None | Some "" =>
      (Raise (LitellmConfigError
                "No model_name specified. Either pass it to __init__ or to chat()."),
       self)
  | Some chosen_model =>
      match completion (backend self) chosen_model msgs opts with
      | (Ok response, b) =>
          (Ok response,
           with_tracker self
             (add_call (cost_tracker self) response chosen_model call_type) b)
      | (Raise ex, b) => (Raise ex, with_tracker self (cost_tracker self) b)
      end
  end.

Definition get_cost_summary (self : LitellmClient) : CostTracker :=
  get_summary (cost_tracker self).

Definition reset_cost_tracking (self : LitellmClient) : LitellmClient :=
  with_tracker self (reset (cost_tracker self)) (backend self).

(** A successful call of [chat]: the model that was chosen and the
    response that the service gave. *)
Definition chat_succeeds (self : LitellmClient) (msgs : messages)
    (model_arg : option string) (opts : options)
    (chosen : string) (response : Response) (b : provider) : Prop :=
  choose_model model_arg (model_name self) = Some chosen /\
  chosen <> "" /\
  completion (backend self) chosen msgs opts = (Ok response, b).

(** The operations a holder of the client can invoke. *)
Inductive Operation : Type :=
| Chat (msgs : messages) (model_name_arg : option string) (opts : options)
       (call_type : string)
| GetCostSummary
| ResetCostTracking.

Definition perform (op : Operation) (self : LitellmClient) : LitellmClient :=
  match op with
  | Chat msgs m opts call_type => snd (chat self msgs m opts call_type)
  | GetCostSummary => self
  | ResetCostTracking => reset_cost_tracking self
  end.

End WithService.

End Llm.

(** ** config/pipeline_config.py, pipeline/steps, pipeline/processor.py *)

Module Pipeline.

(** The configuration: the five fields that the dataclass declares. *)
Record PipelineConfig : Type := {
  pdf_path : path;
  output_dir : path;
  model_name : string;
  skip_ocr_if_exists : bool;
  skip_metadata_if_exists : bool
}.

(** [config.max_pages].  The steps read this attribute, as an optional
    cap on the number of pages, and [main.py] passes it to the constructor;
    the dataclass declares no such field and defines no [__getattr__], so
    the lookup raises [AttributeError]. *)
Definition max_pages (config : PipelineConfig) : res (option Z) :=
  Raise AttributeError.

(** What a step function returns: a dict such as
    [{"status": "success", "pages_processed": 3}]. *)
Definition StepResult := pydict.

(** Everything outside the orchestration core: the state of the machine
    (files, the model client with its ledger), the PDF library, and the
    stage bodies that drive the OCR and model services. *)
Class Environment : Type := {
  world : Type;
  files : world -> filesystem;
  page_count : world -> path -> res Z;
  stem : path -> string;
  str_of_path : path -> string;
  str_of_exn : exn -> string;
  extract_and_save_context_metadata : Z -> path -> world -> res path * world;
  run_ocr_step : PipelineConfig -> world -> res StepResult * world;
  run_enhance_step : PipelineConfig -> world -> res StepResult * world;
  run_table_step : PipelineConfig -> world -> res StepResult * world
}.

Section WithEnvironment.
Context {env : Environment}.

Definition pdf_base_path (config : PipelineConfig) : path :=
  path_div (output_dir config) (stem (pdf_path config)).

(** [range(a, b)]. *)
Definition py_range (a b : Z) : list Z :=
  map (fun i => a + Z.of_nat i) (seq 0 (Z.to_nat (b - a))).

Definition context_metadata_path_of (base : path) (page_num : Z) : path :=
  path_div (path_div base ("page_" ++ str_of_int page_num))
           ("context_metadata_page_" ++ str_of_int page_num ++ ".json").

(** Lines 56-70 of [run_context_step]: which pages already carry a
    record. *)
Fixpoint scan_pages (fs : filesystem) (skip : bool) (base : path)
    (pages : list Z) (pages_with_metadata : Z) (pages_to_process : list Z)
  : Z * list Z :=
  match pages with
  | [] => (pages_with_metadata, pages_to_process)
  | page_num :: rest =>
      if path_exists fs (context_metadata_path_of base page_num) && skip
      then scan_pages fs skip base rest (pages_with_metadata + 1) pages_to_process
      else scan_pages fs skip base rest pages_with_metadata
                      (pages_to_process ++ [page_num])%list
  end.

(** The outcome of the loop of lines 87-100, with the pages handed to
    [extract_and_save_context_metadata] in the order of the calls. *)
Record Processed : Type := {
  successful : Z;
  failed : Z;
  called_on : list Z;
  world_after : world
}.

Fixpoint process_pages (base : path) (pages : list Z) (acc : Processed) : Processed :=
  match pages with
  | [] => acc
  | page_num :: rest =>
      let (outcome, w') :=
        extract_and_save_context_metadata page_num base (world_after acc) in
      process_pages base rest
        match outcome with
        | Ok _ =>
            {| successful := successful acc + 1; failed := failed acc;
               called_on := (called_on acc ++ [page_num])%list; world_after := w' |}
        | Raise _ =>
            {| successful := successful acc; failed := failed acc + 1;
               called_on := (called_on acc ++ [page_num])%list; world_after := w' |}
        end
  end.

(** What a run of the context step did: its return value (or the
    exception it let through), the pages it processed and the world it
    left. *)
Record StepRun : Type := {
  outcome : res StepResult;
  processed_pages : list Z;
  final_world : world
}.

Definition run_context_step (config : PipelineConfig) (w : world) : StepRun :=
  let base := pdf_base_path config in
  if negb (path_exists (files w) base) then
    {| outcome := Ok
         [ ("status", JStr "error");
           ("error", JStr ("OCR output not found at " ++ str_of_path base
                           ++ ". Run OCR step first.")) ];
       processed_pages := []; final_world := w |}
  else
    match page_count w (pdf_path config) with
    | Raise e => {| outcome := Raise e; processed_pages := []; final_world := w |}
    | Ok total_pages =>
        match max_pages config with
        | Raise e =>
            {| outcome := Raise e; processed_pages := []; final_world := w |}
        | Ok cap =>
            let pages_to_check :=
              match cap with
              | Some m => Z.min m total_pages
              | None => total_pages
              end in
            let (pages_with_metadata, pages_to_process) :=
              scan_pages (files w) (skip_metadata_if_exists config) base
                         (py_range 1 (pages_to_check + 1)) 0 [] in
            match pages_to_process with
            | [] =>
                {| outcome := Ok
                     [ ("status", JStr "skipped");
                       ("message", JStr "All pages already have context metadata");
                       ("pages_processed", JNum total_pages) ];
                   processed_pages := []; final_world := w |}
            | _ =>
                let done :=
                  process_pages base pages_to_process
                    {| successful := 0; failed := 0; called_on := [];
                       world_after := w |} in
                {| outcome := Ok
                     [ ("status", JStr "success");
                       ("pages_processed", JNum (successful done));
                       ("pages_failed", JNum (failed done));
                       ("pages_skipped", JNum pages_with_metadata);
                       ("total_pages", JNum total_pages) ];
                   processed_pages := called_on done;
                   final_world := world_after done |}
            end
        end
    end.

(** *** PDFProcessor *)

Definition step_func := PipelineConfig -> world -> res StepResult * world.

Definition context_step : step_func :=
  fun config w =>
    let r := run_context_step config w in (outcome r, final_world r).

(** The dict [all_steps] of [run], in the order of its literal. *)
Definition all_steps : list (string * (string * step_func)) :=
  [ ("ocr", ("OCR Extraction", run_ocr_step));
    ("context", ("Context Metadata", context_step));
    ("enhance", ("Enhance Metadata", run_enhance_step));
    ("table", ("Table Metadata", run_table_step)) ].

Fixpoint lookup_step (name : string) (steps : list (string * (string * step_func)))
  : option (string * step_func) :=
  match steps with
  | [] => None
  | (k, v) :: rest => if String.eqb name k then Some v else lookup_step name rest
  end.

Definition step_names : list string := map fst all_steps.

Definition is_step (name : string) : bool :=
  match lookup_step name all_steps with Some _ => true | None => false end.

(** The processor while it runs: the world, [self.results], and the
    names of the stages whose function has been called, in call order. *)
Record Processor : Type := {
  machine : world;
  results : list (string * json);
  executed : list string
}.

(** The dict recorded for a stage: what its function returned, or the
    [except Exception] branch of lines 92-100. *)
Definition recorded (result : res StepResult) : json :=
  match result with
  | Ok r => JObj r
  | Raise e => JObj [ ("status", JStr "error"); ("error", JStr (str_of_exn e)) ]
  end.

(** Lines 76-100: one turn of the loop over [steps_to_run].  The lookup
    [all_steps[step_name]] is outside the [try]. *)
Definition run_step (config : PipelineConfig) (step_name : string)
    (self : Processor) : res unit * Processor :=
  match lookup_step step_name all_steps with
  | None => (Raise (KeyError step_name), self)
  | Some (step_title, step) =>
      let (result, w') := step config (machine self) in
      (Ok tt,
       {| machine := w';
          results := dict_set step_name (recorded result) (results self);
          executed := (executed self ++ [step_name])%list |})
  end.

Fixpoint run_steps (config : PipelineConfig) (steps_to_run : list string)
    (self : Processor) : res unit * Processor :=
  match steps_to_run with
  | [] => (Ok tt, self)
  | step_name :: rest =>
      match run_step config step_name self with
      | (Ok _, self') => run_steps config rest self'
      | (Raise e, self') => (Raise e, self')
      end
  end.

(** [PDFProcessor.run]: the value returned (the report [self.results]) or
    the exception raised, and the processor as the call leaves it.  The
    two summaries printed at the end only log. *)
Definition run (config : PipelineConfig) (self : Processor)
    (steps : option (list string)) : res (list (string * json)) * Processor :=
  let execute steps_to_run :=
    match run_steps config steps_to_run self with
    | (Ok _, self') => (Ok (results self'), self')
    | (Raise e, self') => (Raise e, self')
    end in
  match steps with
  | None => execute step_names
  | Some steps =>
      let invalid_steps := filter (fun s => negb (is_step s)) steps in
      match invalid_steps with
      | [] => execute steps
      | _ => (Raise (InvalidStepNames invalid_steps step_names), self)
      end
  end.

(** The list of stages a call of [run] goes through. *)
Definition selected (steps : option (list string)) : list string :=
  match steps with
  | None => step_names
  | Some l => l
  end.

End WithEnvironment.

End Pipeline.

(** ** The vocabulary of the specification *)

Module Spec.

Import ImageMetadata.

(** The seven fields that flag enhancement writes. *)
Definition flag_fields : list string :=
  [ "has_tables"; "has_figures"; "has_text_blocks"; "table_count";
    "figure_count"; "text_block_count"; "content_summary" ].

(** The fields of a matched record that are copied behind an [if]. *)
Definition guarded_fields : list string :=
  [ "title"; "summary"; "dates"; "locations"; "model_name"; "component_type";
    "model_applicability"; "application_context"; "related_tables" ].

(** Text made of decimal digits only; text that starts with one. *)
Definition all_digits (s : string) : bool := all_tokens decimal_digits s.

Definition starts_with_digit (s : string) : bool :=
  starts_with_token decimal_digits s.

(** An identifier of the form [(figure|image)-<page>-<index>]: the kind,
    a dash, the decimal digits of the page, a dash, the decimal digits of
    the index.  What follows the index, if anything, does not start with a
    digit ([re.match] does not look at it). *)
Definition id_pattern (element_id page index : string) : Prop :=
  exists kind rest,
    (kind = "figure" \/ kind = "image") /\
    element_id = kind ++ "-" ++ page ++ "-" ++ index ++ rest /\
    page <> "" /\ index <> "" /\
    all_digits page = true /\ all_digits index = true /\
    starts_with_digit rest = false.

(** A list-of-strings field ([keywords], [entities]); a missing field
    reads as the empty list. *)
Fixpoint strings_of (l : list json) : option (list string) :=
  match l with
  | [] => Some []
  | JStr s :: rest =>
      match strings_of rest with
      | Some ss => Some (s :: ss)
      | None => None
      end
  | _ => None
  end.

Definition string_list_field (f : string) (d : pydict) : option (list string) :=
  match dict_get f d with
  | None => Some []
  | Some (JArr l) => strings_of l
  | Some _ => None
  end.

Definition is_string_list (f : string) (d : pydict) : bool :=
  match string_list_field f d with Some _ => true | None => false end.

(** The record of [image_metadata] that carries the identifier [id]; of
    several, the last. *)
Definition has_image_id (id : string) (record : pydict) : bool :=
  match dict_get_default "image_id" (JStr "") record with
  | JStr s => String.eqb s id
  | _ => false
  end.

Fixpoint record_for (id : string) (records : list json) : option pydict :=
  match records with
  | [] => None
  | r :: rest =>
      match record_for id rest with
      | Some d => Some d
      | None =>
          match r with
          | JObj d => if has_image_id id d then Some d else None
          | _ => None
          end
      end
  end.

(** The record correlated with [(page, index)]: the [image-] spelling
    first, the [figure-] spelling otherwise. *)
Definition matched_record (page index : string) (records : list json)
  : option pydict :=
  match record_for ("image-" ++ page ++ "-" ++ index) records with
  | Some d => Some d
  | None => record_for ("figure-" ++ page ++ "-" ++ index) records
  end.

(** Records and elements as the data model has them: objects whose
    identifier is a string and whose [keywords] and [entities] are lists of
    strings, each of the three possibly missing. *)
Definition is_string_or_missing (f : string) (d : pydict) : bool :=
  match dict_get f d with
  | None | Some (JStr _) => true
  | Some _ => false
  end.

(** A record whose identifier is a string, or missing. *)
Definition has_string_id (r : json) : bool :=
  match r with
  | JObj d => is_string_or_missing "image_id" d
  | _ => false
  end.

Definition well_typed_record (r : json) : bool :=
  match r with
  | JObj d =>
      is_string_or_missing "image_id" d &&
      is_string_list "keywords" d && is_string_list "entities" d
  | _ => false
  end.

Definition well_typed_element (e : json) : bool :=
  match e with
  | JObj d =>
      is_string_or_missing "element_id" d &&
      is_string_list "keywords" d && is_string_list "entities" d
  | _ => false
  end.

(** Field [f] of [fields'] is the union, as a set, of field [f] of the
    element and of the matched record. *)
Definition union_of (f : string) (matched fields fields' : pydict) : Prop :=
  exists old new merged,
    string_list_field f fields = Some old /\
    string_list_field f matched = Some new /\
    dict_get f fields' = Some (JArr (map JStr merged)) /\
    NoDup merged /\
    forall s, In s merged <-> In s old \/ In s new.

(** Sets of strings as Python builds them: the member that a string
    contributes, and insertion into the sequence of members. *)
Definition entry (s : string) : hkey * json := (KStr s, JStr s).

Definition add_string (acc : list string) (s : string) : list string :=
  if existsb (String.eqb s) acc then acc else (acc ++ [s])%list.

Definition element_id_of (fields : pydict) : json :=
  dict_get_default "element_id" (JStr "") fields.

(** What correlation does to one content element, given the generated
    records. *)
Inductive correlated (records : list json) : json -> json -> Prop :=
| corr_other_type fields :
    is_figure (dict_get "type" fields) = false ->
    correlated records (JObj fields) (JObj fields)
| corr_other_id fields element_id :
    is_figure (dict_get "type" fields) = true ->
    element_id_of fields = JStr element_id ->
    (forall page index, ~ id_pattern element_id page index) ->
    correlated records (JObj fields) (JObj fields)
| corr_no_record fields element_id page index :
    is_figure (dict_get "type" fields) = true ->
    element_id_of fields = JStr element_id ->
    id_pattern element_id page index ->
    matched_record page index records = None ->
    correlated records (JObj fields) (JObj fields)
| corr_merged fields element_id page index matched fields' :
    is_figure (dict_get "type" fields) = true ->
    element_id_of fields = JStr element_id ->
    id_pattern element_id page index ->
    matched_record page index records = Some matched ->
    union_of "keywords" matched fields fields' ->
    union_of "entities" matched fields fields' ->
    correlated records (JObj fields) (JObj fields').

(** The stages of the pipeline in their dependency order, as the
    specification lists them, and the stage behind each step function of
    the [steps] package ([run_<name>_step]). *)
Inductive stage : Type :=
| Extraction
| TableStructureCorrection
| ContextGeneration
| FlagEnhancement
| TableSemanticMetadata
| ImageSemanticMetadata.

Definition pipeline_stages : list stage :=
  [ Extraction; TableStructureCorrection; ContextGeneration; FlagEnhancement;
    TableSemanticMetadata; ImageSemanticMetadata ].

Definition stage_of_step (name : string) : option stage :=
  if String.eqb name "ocr" then Some Extraction
  else if String.eqb name "improve_table" then Some TableStructureCorrection
  else if String.eqb name "context" then Some ContextGeneration
  else if String.eqb name "enhance" then Some FlagEnhancement
  else if String.eqb name "table" then Some TableSemanticMetadata
  else if String.eqb name "image" then Some ImageSemanticMetadata
  else None.

End Spec.

Export Spec.

(** ** Sample data *)

Module Samples.

(** Iteration in insertion order: one order an interpreter may use. *)
Definition insertion_order : set_iteration :=
  {| iteration_order := fun l => l;
     iteration_order_perm := @Permutation_refl json |}.

Definition sample_order : ImageMetadata.union_order :=
  {| ImageMetadata.union_iteration := fun _ _ => insertion_order |}.

(** A page record with one figure element and two generated image
    records, one under each spelling of the identifier. *)
Definition figure_element : pydict :=
  [ ("element_id", JStr "figure-12-2");
    ("type", JStr "figure");
    ("title", JStr "Valve assembly");
    ("image_type", JStr "diagram");
    ("keywords", JArr [JStr "a"; JStr "b"]) ].

Definition table_element : pydict :=
  [ ("element_id", JStr "table-12-1"); ("type", JStr "table") ].

Definition image_record : pydict :=
  [ ("image_type", JStr "");
    ("title", JStr "");
    ("keywords", JArr [JStr "b"; JStr "c"]);
    ("image_id", JStr "image-12-2");
    ("image_file", JStr "image-12-2.png") ].

Definition figure_record : pydict :=
  [ ("keywords", JArr [JStr "z"]); ("image_id", JStr "figure-12-2") ].

Definition page_context : pydict :=
  [ ("page_title", JStr "Maintenance");
    ("content_elements", JArr [JObj figure_element; JObj table_element]);
    ("image_metadata", JArr [JObj figure_record; JObj image_record]) ].

(** The same page when the generated record carries [entities: null], the
    default of [ImageMetadataResponse.entities] (Optional[List[str]]). *)
Definition null_entities_record : pydict :=
  [ ("image_type", JStr "diagram");
    ("title", JStr "Valve assembly");
    ("summary", JStr "Exploded view");
    ("natural_description", JStr "An exploded view of the valve.");
    ("keywords", JArr [JStr "valve"]);
    ("dates", JNull);
    ("locations", JNull);
    ("entities", JNull);
    ("image_id", JStr "image-12-2");
    ("image_file", JStr "image-12-2.png") ].

Definition null_entities_context : pydict :=
  [ ("content_elements", JArr [JObj figure_element]);
    ("has_figures", JBool true);
    ("image_metadata", JArr [JObj null_entities_record]) ].

(** A page without generated image records. *)
Definition plain_context : pydict :=
  [ ("page_title", JStr "Maintenance");
    ("content_elements", JArr [JObj figure_element]) ].

(** A store with the two metadata files of page 1, and a codec that knows
    their contents. *)
Definition sample_context_path : path := ["out"; "manual"; "page_1"; "context_metadata_page_1.json"].
Definition sample_basic_path : path := ["out"; "manual"; "page_1"; "metadata_page_1.json"].

Definition sample_context_record : pydict :=
  [ ("page_title", JStr "Maintenance"); ("has_tables", JBool false) ].

Definition sample_basic_record : pydict :=
  [ ("page_number", JNum 1);
    ("page_image", JStr "page_1_full.png");
    ("tables", JArr [JStr "table-1-1"; JStr "table-1-2"]);
    ("figures", JArr []);
    ("text_blocks", JArr [JStr "page_1_text.txt"]) ].

Definition sample_codec : Codec :=
  {| b64encode := fun s => s;
     json_loads := fun s =>
       if String.eqb s "context" then Ok (JObj sample_context_record)
       else if String.eqb s "basic" then Ok (JObj sample_basic_record)
       else Raise JSONDecodeError;
     json_dumps := fun _ => "{}";
     decode_text := fun bytes => Ok bytes |}.

Definition path_eqb (p q : path) : bool :=
  if list_eq_dec string_dec p q then true else false.

Definition sample_files : filesystem :=
  fun p =>
    if path_eqb p sample_context_path then Some (File "context")
    else if path_eqb p sample_basic_path then Some (File "basic")
    else if path_eqb p ["out"; "manual"; "page_1"] then Some Dir
    else if path_eqb p ["out"; "manual"] then Some Dir
    else None.

(** A store in which page 2 is complete enough (directory and rendered
    image) and page 1 has its directory and structural metadata but no
    rendered image; there is no page 3. *)
Definition window_base : path := ["out"; "manual"].

Definition window_files : filesystem :=
  fun p =>
    if path_eqb p ["out"; "manual"; "page_2"] then Some Dir
    else if path_eqb p ["out"; "manual"; "page_2"; "page_2_full.png"]
         then Some (File "PNG")
    else if path_eqb p ["out"; "manual"; "page_1"] then Some Dir
    else if path_eqb p ["out"; "manual"; "page_1"; "metadata_page_1.json"]
         then Some (File "basic")
    else None.

(** A model service that answers every request with the same response;
    in the first the cost of the response cannot be computed (the model has
    no price entry), in the second it is 3.  Costs are counted in whole
    units here. *)
Definition sample_response : Llm.Response :=
  {| Llm.content := "{}";
     Llm.usage := Some {| Llm.usage_prompt_tokens := Some 120;
                          Llm.usage_completion_tokens := Some 30;
                          Llm.usage_total_tokens := Some 150 |} |}.

Definition unpriced_service : Llm.Service :=
  {| Llm.float := Z;
     Llm.float_zero := 0;
     Llm.float_add := Z.add;
     Llm.messages := unit;
     Llm.options := unit;
     Llm.provider := unit;
     Llm.completion := fun b _ _ _ => (Ok sample_response, b);
     Llm.completion_cost := fun _ => Raise (OtherException "model not mapped") |}.

Definition priced_service : Llm.Service :=
  {| Llm.float := Z;
     Llm.float_zero := 0;
     Llm.float_add := Z.add;
     Llm.messages := unit;
     Llm.options := unit;
     Llm.provider := unit;
     Llm.completion := fun b _ _ _ => (Ok sample_response, b);
     Llm.completion_cost := fun _ => Ok 3 |}.

Definition unpriced_client : @Llm.LitellmClient unpriced_service :=
  @Llm.Build_LitellmClient unpriced_service
    (Some "openai/gpt-4o") (@Llm.init unpriced_service) tt.

Definition priced_client : @Llm.LitellmClient priced_service :=
  @Llm.Build_LitellmClient priced_service
    (Some "openai/gpt-4o") (@Llm.init priced_service) tt.

(** A machine for the pipeline: the world counts the stage functions
    called so far; the store holds the output of a two-page document with
    a context record on both pages; the extraction stage fails when it is
    the first thing called (the OCR backend is not up yet) and succeeds
    afterwards. *)
Definition pipeline_files : filesystem :=
  fun p =>
    if path_eqb p ["out"; "manual"] then Some Dir
    else if path_eqb p ["out"; "manual"; "page_1"] then Some Dir
    else if path_eqb p ["out"; "manual"; "page_2"] then Some Dir
    else if path_eqb p ["out"; "manual"; "page_1"; "context_metadata_page_1.json"]
         then Some (File "context")
    else if path_eqb p ["out"; "manual"; "page_2"; "context_metadata_page_2.json"]
         then Some (File "context")
    else None.

Definition sample_environment : Pipeline.Environment :=
  {| Pipeline.world := nat;
     Pipeline.files := fun _ => pipeline_files;
     Pipeline.page_count := fun _ _ => Ok 2;
     Pipeline.stem := fun _ => "manual";
     Pipeline.str_of_path := fun p => String.concat "/" p;
     Pipeline.str_of_exn := fun e =>
       match e with
       | OtherException msg | ValueError msg | LitellmConfigError msg => msg
       | _ => "error"
       end;
     Pipeline.extract_and_save_context_metadata := fun n base w =>
       (Ok (Pipeline.context_metadata_path_of base n), S w);
     Pipeline.run_ocr_step := fun _ w =>
       match w with
       | O => (Raise (OtherException "OCR backend unavailable"), S w)
       | S _ => (Ok [("status", JStr "success"); ("pages_processed", JNum 2)], S w)
       end;
     Pipeline.run_enhance_step := fun _ w =>
       (Ok [("status", JStr "success"); ("pages_enhanced", JNum 2)], S w);
     Pipeline.run_table_step := fun _ w =>
       (Ok [("status", JStr "success"); ("total_tables", JNum 0)], S w) |}.

Definition sample_config : Pipeline.PipelineConfig :=
  {| Pipeline.pdf_path := ["data"; "manual.pdf"];
     Pipeline.output_dir := ["out"];
     Pipeline.model_name := "openai/gpt-4o";
     Pipeline.skip_ocr_if_exists := true;
     Pipeline.skip_metadata_if_exists := true |}.

Definition fresh_processor : @Pipeline.Processor sample_environment :=
  @Pipeline.Build_Processor sample_environment O [] [].

(** A machine whose world is the list of pages that carry a context
    record: generating the record of a page adds the page. *)
Definition written_files (written : list Z) : filesystem :=
  fun p =>
    if path_eqb p ["out"; "manual"] then Some Dir
    else if existsb
              (fun n => path_eqb p
                 (Pipeline.context_metadata_path_of ["out"; "manual"] n))
              written
         then Some (File "context")
    else None.

Definition writing_environment : Pipeline.Environment :=
  {| Pipeline.world := list Z;
     Pipeline.files := written_files;
     Pipeline.page_count := fun _ _ => Ok 2;
     Pipeline.stem := fun _ => "manual";
     Pipeline.str_of_path := fun p => String.concat "/" p;
     Pipeline.str_of_exn := fun e =>
       match e with
       | AttributeError => "'PipelineConfig' object has no attribute 'max_pages'"
       | _ => "error"
       end;
     Pipeline.extract_and_save_context_metadata := fun n base w =>
       (Ok (Pipeline.context_metadata_path_of base n), n :: w);
     Pipeline.run_ocr_step := fun _ w => (Ok [("status", JStr "skipped")], w);
     Pipeline.run_enhance_step := fun _ w => (Ok [("status", JStr "success")], w);
     Pipeline.run_table_step := fun _ w => (Ok [("status", JStr "success")], w) |}.

(** The machine when both pages of the document carry a context record,
    and a processor on it. *)
Definition recorded_pages : list Z := [2; 1].

Definition recorded_processor : @Pipeline.Processor writing_environment :=
  @Pipeline.Build_Processor writing_environment recorded_pages [] [].

End Samples.

(** ** String cleaning of model output

    [str.strip], [str.removeprefix], [str.removesuffix], [str.startswith],
    [str.endswith] and slices. *)

Module Text.

(** [s.lstrip()], [s.rstrip()] and [s.strip()] remove the whitespace
    characters at the start, at the end and at both ends. *)
Definition lstrip (s : string) : string := snd (span_tokens whitespace s).

Definition rstrip (s : string) : string :=
  reverse (snd (span_tokens (map reverse whitespace) (reverse s))).

Definition strip (s : string) : string := rstrip (lstrip s).

Definition startswith (p s : string) : bool :=
  match strip_prefix p s with Some _ => true | None => false end.

(** [s] without the suffix [suf], when it ends with it. *)
Fixpoint strip_suffix (suf s : string) : option string :=
  if String.eqb s suf then Some EmptyString else
  match s with
  | EmptyString => None
  | String c s' =>
      match strip_suffix suf s' with
      | Some r => Some (String c r)
      | None => None
      end
  end.

Definition endswith (suf s : string) : bool :=
  match strip_suffix suf s with Some _ => true | None => false end.

Definition removeprefix (p s : string) : string :=
  match strip_prefix p s with Some r => r | None => s end.

Definition removesuffix (suf s : string) : string :=
  match strip_suffix suf s with Some r => r | None => s end.

(** [s[n:]] and [s[:-n]] for [n > 0].  The source slices off a fence it
    has just found; a fence is ASCII, so its characters are its bytes. *)
Fixpoint drop (n : nat) (s : string) : string :=
  match n, s with
  | O, _ => s
  | S n', String _ s' => drop n' s'
  | S _, EmptyString => EmptyString
  end.

Definition drop_last (n : nat) (s : string) : string :=
  substring 0 (String.length s - n) s.

(** [extract_page_context.save_context_metadata], lines 225-227. *)
Definition clean_json_str (metadata_content : string) : string :=
  strip (removesuffix "```" (removeprefix "```json" (strip metadata_content))).

(** [improve_table_structure.improve_table_structure], lines 57-71, on the
    text of the response. *)
Definition clean_corrected_html (response_content : string) : string :=
  let corrected_html := strip response_content in
  let corrected_html :=
    if startswith "```html" corrected_html then drop 7 corrected_html
    else if startswith "```" corrected_html then drop 3 corrected_html
    else corrected_html in
  let corrected_html :=
    if endswith "```" corrected_html then drop_last 3 corrected_html
    else corrected_html in
  strip corrected_html.

(** Vocabulary: text made of whitespace characters only; text that is
    empty or has no whitespace character (nor a piece of one) at either
    end. *)
Definition all_space (s : string) : bool := all_tokens whitespace s.

Definition trimmed (s : string) : bool :=
  String.eqb s "" ||
  (clear_of whitespace s && clear_of (map reverse whitespace) (reverse s)).

End Text.

(** ** Writing artifacts

    [open(p, "w")] followed by one write: the directory that holds [p] must
    be there, and [p] must not be a directory itself. *)

Module Artifacts.

Definition path_eqb (p q : path) : bool :=
  if list_eq_dec string_dec p q then true else false.

Definition open_write (fs : filesystem) (p : path) (content : string)
  : res unit * filesystem :=
  match fs (removelast p) with
  | None => (Raise (FileNotFoundError p), fs)
  | Some (File _) => (Raise (OtherException "NotADirectoryError"), fs)
  | Some Dir =>
      match fs p with
      | Some Dir => (Raise (IsADirectoryError p), fs)
      | _ => (Ok tt, fun q => if path_eqb q p then Some (File content) else fs q)
      end
  end.

(** What the core uses of the standard library when it writes:
    [json.dump(obj, f, indent=2)], the same with [ensure_ascii=False], and
    [str(path)]. *)
Class Runtime : Type := {
  dump_indent : json -> string;
  dump_indent_unicode : json -> string;
  path_str : path -> string
}.

End Artifacts.

(** ** indexing/metadata/extract_page_context.py: saving a record *)

Module ContextRecord.

Import Artifacts PageContextBuilder.

Section WithRuntime.
Context {codec : Codec} {runtime : Runtime}.

(** [save_context_metadata], lines 201-237.  The module binds the name
    [json] only inside [if __name__ == "__main__":] (line 270), so the
    lookup of [json] at line 230 succeeds when the file runs as a script
    and raises [NameError] when the function is called from a module that
    imported it; [json_bound] says which. *)
Definition save_context_metadata (json_bound : bool) (fs : filesystem)
    (page_number : Z) (pdf_base_path : path) (metadata_content : string)
  : res path * filesystem :=
  let page_dir := page_dir_of pdf_base_path page_number in
  if negb (path_exists fs page_dir) then (Raise (FileNotFoundError page_dir), fs)
  else
    let clean_json_str := Text.clean_json_str metadata_content in
    if negb json_bound
    then (Raise (OtherException "name 'json' is not defined"), fs)
    else
      match json_loads clean_json_str with
      | Raise e => (Raise e, fs)
      | Ok parsed_data =>
          let context_metadata_path :=
            path_div page_dir
              ("context_metadata_page_" ++ str_of_int page_number ++ ".json") in
          match open_write fs context_metadata_path
                  (dump_indent_unicode parsed_data) with
          | (Ok _, fs') => (Ok context_metadata_path, fs')
          | (Raise e, fs') => (Raise e, fs')
          end
      end.

End WithRuntime.

End ContextRecord.

(** ** core/utils.py and pipeline/steps/enhance_step.py: the enhance stage *)

Module EnhanceStep.

Import Artifacts PageContextBuilder.

Section WithRuntime.
Context {codec : Codec} {runtime : Runtime}.

(** [utils.enhance_context_metadata_file], lines 84-111. *)
Definition enhance_context_metadata_file (fs : filesystem)
    (context_metadata_path basic_metadata_path : path)
    (output_path : option path) : res path * filesystem :=
  match Utils.enhance_context_metadata fs context_metadata_path
          basic_metadata_path with
  | Raise e => (Raise e, fs)
  | Ok enhanced_metadata =>
      let output_path :=
        match output_path with
        | None => context_metadata_path
        | Some p => p
        end in
      match open_write fs output_path (dump_indent (JObj enhanced_metadata)) with
      | (Ok _, fs') => (Ok output_path, fs')
      | (Raise e, fs') => (Raise e, fs')
      end
  end.

(** The counters of [run_enhance_step] and the store, while the loop of
    lines 48-85 runs. *)
Record Tally : Type := {
  enhanced : Z;
  skipped : Z;
  failed : Z;
  store : filesystem
}.

Definition skip_page (t : Tally) : Tally :=
  {| enhanced := enhanced t; skipped := skipped t + 1; failed := failed t;
     store := store t |}.

Definition enhance_page (pdf_base_path : path) (page_num : Z) (t : Tally) : Tally :=
  let page_dir := page_dir_of pdf_base_path page_num in
  if negb (path_exists (store t) page_dir) then skip_page t else
  let context_metadata_path :=
    path_div page_dir ("context_metadata_page_" ++ str_of_int page_num ++ ".json") in
  let basic_metadata_path :=
    path_div page_dir ("metadata_page_" ++ str_of_int page_num ++ ".json") in
  if negb (path_exists (store t) context_metadata_path) then skip_page t else
  if negb (path_exists (store t) basic_metadata_path) then skip_page t else
  match enhance_context_metadata_file (store t) context_metadata_path
          basic_metadata_path None with
  | (Ok _, fs') =>
      {| enhanced := enhanced t + 1; skipped := skipped t; failed := failed t;
         store := fs' |}
  | (Raise _, fs') =>
      {| enhanced := enhanced t; skipped := skipped t; failed := failed t + 1;
         store := fs' |}
  end.

Definition enhance_pages (pdf_base_path : path) (pages : list Z) (t : Tally)
  : Tally :=
  fold_left (fun acc page_num => enhance_page pdf_base_path page_num acc) pages t.

(** [run_enhance_step]; [page_count] is what [fitz.open(pdf).page_count]
    gives, or the exception of [fitz.open]. *)
Definition run_enhance_step (fs : filesystem) (pdf_base_path : path)
    (page_count : res Z) : res pydict * filesystem :=
  if negb (path_exists fs pdf_base_path) then
    (Ok [ ("status", JStr "error");
          ("error", JStr ("OCR output not found at " ++ path_str pdf_base_path
                          ++ ". Run OCR step first.")) ],
     fs)
  else
    match page_count with
    | Raise e => (Raise e, fs)
    | Ok total_pages =>
        let t :=
          enhance_pages pdf_base_path (Pipeline.py_range 1 (total_pages + 1))
            {| enhanced := 0; skipped := 0; failed := 0; store := fs |} in
        (Ok [ ("status", JStr "success");
              ("pages_enhanced", JNum (enhanced t));
              ("pages_skipped", JNum (skipped t));
              ("pages_failed", JNum (failed t));
              ("total_pages", JNum total_pages) ],
         store t)
    end.

End WithRuntime.

End EnhanceStep.

(** ** core/llm/litellm_client.py: configuration, and the ledger's totals *)

Module ClientConfig.

(** The process environment: [os.getenv]. *)
Definition environ := string -> option string.

(** Truth value of [os.getenv(key)]: set and not empty. *)
Definition env_set (env : environ) (key : string) : bool :=
  match env key with
  | Some v => negb (String.eqb v "")
  | None => false
  end.

Definition api_keys : list string :=
  [ "OPENAI_API_KEY"; "ANTHROPIC_API_KEY"; "GOOGLE_API_KEY";
    "AZURE_OPENAI_KEY"; "COHERE_API_KEY"; "TOGETHER_API_KEY" ].

(** [LitellmClient._has_valid_config], lines 131-158. *)
Definition has_valid_config (env : environ) : bool :=
  let has_api_key := existsb (env_set env) api_keys in
  if env_set env "AZURE_OPENAI_KEY" then
    let has_azure_config :=
      env_set env "AZURE_OPENAI_ENDPOINT"
      && env_set env "AZURE_OPENAI_API_VERSION" in
    if negb has_azure_config then false else has_api_key
  else has_api_key.

Section WithService.
Context {service : Llm.Service}.

(** [LitellmClient.__init__], lines 100-129. *)
Definition new_client (env : environ) (model_name : option string)
    (backend : Llm.provider) : res Llm.LitellmClient :=
  if negb (has_valid_config env) then
    Raise (LitellmConfigError
             "Missing required environment variables. Please set appropriate API keys for your chosen provider (e.g., OPENAI_API_KEY, ANTHROPIC_API_KEY, etc.) before instantiating LitellmClient.")
  else
    Ok {| Llm.model_name := model_name;
          Llm.cost_tracker := Llm.init;
          Llm.backend := backend |}.

(** Vocabulary: the totals of a ledger are those of its breakdown. *)
Definition sum_of (f : Llm.BreakdownEntry -> Z) (l : list Llm.BreakdownEntry) : Z :=
  fold_left (fun acc e => acc + f e) l 0.

Definition balanced (t : Llm.CostTracker) : Prop :=
  Llm.call_count t = Z.of_nat (List.length (Llm.cost_breakdown t)) /\
  Llm.total_prompt_tokens t = sum_of Llm.entry_prompt_tokens (Llm.cost_breakdown t) /\
  Llm.total_completion_tokens t
    = sum_of Llm.entry_completion_tokens (Llm.cost_breakdown t) /\
  Llm.total_tokens t = sum_of Llm.entry_total_tokens (Llm.cost_breakdown t) /\
  Llm.total_cost t
    = fold_left (fun acc e => Llm.float_add acc (Llm.entry_cost e))
                (Llm.cost_breakdown t) Llm.float_zero.

End WithService.

End ClientConfig.

(** ** More vocabulary *)

Module MoreSpec.

(** An element after correlation is the element it was: either untouched,
    or an object with the same [element_id] and [type]. *)
Definition same_identity (e e' : json) : Prop :=
  e' = e \/
  exists fields fields',
    e = JObj fields /\ e' = JObj fields' /\
    dict_get "element_id" fields' = dict_get "element_id" fields /\
    dict_get "type" fields' = dict_get "type" fields.

End MoreSpec.

(** ** More sample data *)

Module MoreSamples.

Definition newline : string := String (ascii_of_nat 10) EmptyString.

(** A response of the model wrapped in a code fence. *)
Definition fenced_json : string :=
  ("```json" ++ newline ++ "{}" ++ newline ++ "```" ++ newline)%string.

Definition fenced_html : string :=
  ("```html" ++ newline ++ "<table></table>" ++ newline ++ "```")%string.

Definition sample_runtime : Artifacts.Runtime :=
  {| Artifacts.dump_indent := fun _ => "context";
     Artifacts.dump_indent_unicode := fun _ => "context";
     Artifacts.path_str := fun p => String.concat "/" p |}.

(** A codec that reads every text as the same record. *)
Definition constant_codec : Codec :=
  {| b64encode := fun s => s;
     json_loads := fun _ => Ok (JObj Samples.sample_context_record);
     json_dumps := fun _ => "{}";
     decode_text := fun bytes => Ok bytes |}.

(** An environment with an OpenAI key only, and one with an Azure key but
    no endpoint. *)
Definition openai_environ : ClientConfig.environ :=
  fun key => if String.eqb key "OPENAI_API_KEY" then Some "sk-test" else None.

Definition azure_key_only : ClientConfig.environ :=
  fun key =>
    if String.eqb key "OPENAI_API_KEY" then Some "sk-test"
    else if String.eqb key "AZURE_OPENAI_KEY" then Some "azure-test"
    else None.

(** A one-page document of which only the page image was extracted. *)
Definition single_page_files : filesystem :=
  fun p =>
    if Samples.path_eqb p ["doc"; "page_1"] then Some Dir
    else if Samples.path_eqb p ["doc"; "page_1"; "page_1_full.png"]
         then Some (File "PNG")
    else None.

(** A session with the client: two calls with a reset between them. *)
Definition sample_session : list (@Llm.Operation Samples.priced_service) :=
  [ @Llm.Chat Samples.priced_service tt None tt "context_metadata";
    @Llm.ResetCostTracking Samples.priced_service;
    @Llm.Chat Samples.priced_service tt None tt "image_metadata";
    @Llm.GetCostSummary Samples.priced_service ].

Definition client_without_model : @Llm.LitellmClient Samples.priced_service :=
  @Llm.Build_LitellmClient Samples.priced_service None
    (@Llm.init Samples.priced_service) tt.

End MoreSamples.

(* ================================================================== *)
(** * Part II: properties                                               *)
(* ================================================================== *)

(** ** Dictionaries *)

Lemma dict_get_set_same (k : string) (v : json) (d : pydict) :
  dict_get k (dict_set k v d) = Some v.
Proof.
  induction d as [|[k' v'] d IH]; simpl.
  - now rewrite String.eqb_refl.
  - destruct (String.eqb k k') eqn:E; simpl; rewrite E; auto.
Qed.

Lemma dict_get_set_other (k k' : string) (v : json) (d : pydict) :
  k <> k' -> dict_get k' (dict_set k v d) = dict_get k' d.
Proof.
  intros Hne. induction d as [|[k0 v0] d IH]; simpl.
  - destruct (String.eqb k' k) eqn:E; auto.
    apply String.eqb_eq in E. congruence.
  - destruct (String.eqb k k0) eqn:E; simpl.
    + apply String.eqb_eq in E. subst k0.
      destruct (String.eqb k' k) eqn:E'; auto.
      apply String.eqb_eq in E'. congruence.
    + now rewrite IH.
Qed.

Lemma dict_get_default_set_same (k : string) (v default : json) (d : pydict) :
  dict_get_default k default (dict_set k v d) = v.
Proof. unfold dict_get_default. now rewrite dict_get_set_same. Qed.

Lemma dict_get_default_set_other (k k' : string) (v default : json) (d : pydict) :
  k <> k' ->
  dict_get_default k' default (dict_set k v d) = dict_get_default k' default d.
Proof. intros. unfold dict_get_default. now rewrite dict_get_set_other. Qed.

Lemma dict_get_update_other (k : string) (other d : pydict) :
  ~ In k (map fst other) -> dict_get k (dict_update d other) = dict_get k d.
Proof.
  unfold dict_update. revert d.
  induction other as [|[k0 v0] other IH]; intros d Hnot; simpl; auto.
  rewrite IH.
  - apply dict_get_set_other. intros ->. apply Hnot. now left.
  - intros Hin. apply Hnot. now right.
Qed.

(** Strings are compared by [String.eqb]; [string_neq] settles the
    side conditions on distinct field names. *)
Ltac string_neq :=
  let H := fresh in intro H; apply String.eqb_eq in H; vm_compute in H; discriminate.

(** ** Flag enhancement (core/utils.py) *)

Section FlagEnhancement.
Context {codec : Codec}.

Lemma enhance_flags_arrays (context basic : pydict) (tables figures text_blocks : list json) :
  dict_get_default "tables" (JArr []) basic = JArr tables ->
  dict_get_default "figures" (JArr []) basic = JArr figures ->
  dict_get_default "text_blocks" (JArr []) basic = JArr text_blocks ->
  Utils.enhance_flags (JObj context) (JObj basic) =
  Ok (dict_update context
        [ ("has_tables", JBool (0 <? Z.of_nat (List.length tables)));
          ("has_figures", JBool (0 <? Z.of_nat (List.length figures)));
          ("has_text_blocks", JBool (0 <? Z.of_nat (List.length text_blocks)));
          ("table_count", JNum (Z.of_nat (List.length tables)));
          ("figure_count", JNum (Z.of_nat (List.length figures)));
          ("text_block_count", JNum (Z.of_nat (List.length text_blocks)));
          ("content_summary",
            JObj [ ("tables", JArr tables);
                   ("figures", JArr figures);
                   ("text_blocks", JArr text_blocks) ]) ]).
Proof.
  intros Ht Hf Hx. unfold Utils.enhance_flags. simpl.
  rewrite Ht, Hf, Hx. reflexivity.
Qed.

Lemma dict_update_flags_get (d : pydict) (v1 v2 v3 v4 v5 v6 v7 : json) :
  let r := dict_update d
        [ ("has_tables", v1); ("has_figures", v2); ("has_text_blocks", v3);
          ("table_count", v4); ("figure_count", v5); ("text_block_count", v6);
          ("content_summary", v7) ] in
  dict_get "has_tables" r = Some v1 /\
  dict_get "has_figures" r = Some v2 /\
  dict_get "has_text_blocks" r = Some v3 /\
  dict_get "table_count" r = Some v4 /\
  dict_get "figure_count" r = Some v5 /\
  dict_get "text_block_count" r = Some v6 /\
  dict_get "content_summary" r = Some v7.
Proof.
  unfold dict_update; simpl.
  repeat split;
    repeat (first [ apply dict_get_set_same
                  | rewrite dict_get_set_other by string_neq ]).
Qed.

(** C4. Flag enhancement.  When the two files hold a context metadata
    record and a structural metadata record whose [tables], [figures] and
    [text_blocks] are lists (a missing one reads as the empty list),
    [enhance_context_metadata] returns the context record with
    [has_tables = (len(tables) > 0)], [has_figures], [has_text_blocks]
    likewise, the three counts equal to the lengths, [content_summary]
    echoing the three lists, and every other field as it was.  In
    particular a non-empty [tables] gives [has_tables = true]. *)
Theorem flag_enhancement_correct
    (fs : filesystem) (context_path basic_path : path)
    (context basic : pydict) (tables figures text_blocks : list json) :
  Utils.load_json fs context_path = Ok (JObj context) ->
  Utils.load_json fs basic_path = Ok (JObj basic) ->
  dict_get_default "tables" (JArr []) basic = JArr tables ->
  dict_get_default "figures" (JArr []) basic = JArr figures ->
  dict_get_default "text_blocks" (JArr []) basic = JArr text_blocks ->
  exists enhanced,
    Utils.enhance_context_metadata fs context_path basic_path = Ok enhanced /\
    dict_get "has_tables" enhanced = Some (JBool (0 <? Z.of_nat (List.length tables))) /\
    dict_get "has_figures" enhanced = Some (JBool (0 <? Z.of_nat (List.length figures))) /\
    dict_get "has_text_blocks" enhanced
      = Some (JBool (0 <? Z.of_nat (List.length text_blocks))) /\
    dict_get "table_count" enhanced = Some (JNum (Z.of_nat (List.length tables))) /\
    dict_get "figure_count" enhanced = Some (JNum (Z.of_nat (List.length figures))) /\
    dict_get "text_block_count" enhanced
      = Some (JNum (Z.of_nat (List.length text_blocks))) /\
    dict_get "content_summary" enhanced
      = Some (JObj [ ("tables", JArr tables);
                     ("figures", JArr figures);
                     ("text_blocks", JArr text_blocks) ]) /\
    (forall k, ~ In k flag_fields -> dict_get k enhanced = dict_get k context) /\
    (tables <> [] -> dict_get "has_tables" enhanced = Some (JBool true)).
Proof.
  intros Hc Hb Ht Hf Hx.
  eexists. split.
  { unfold Utils.enhance_context_metadata. rewrite Hc, Hb. simpl bind.
    apply (enhance_flags_arrays context basic Ht Hf Hx). }
  pose proof (dict_update_flags_get context
    (JBool (0 <? Z.of_nat (List.length tables)))
    (JBool (0 <? Z.of_nat (List.length figures)))
    (JBool (0 <? Z.of_nat (List.length text_blocks)))
    (JNum (Z.of_nat (List.length tables)))
    (JNum (Z.of_nat (List.length figures)))
    (JNum (Z.of_nat (List.length text_blocks)))
    (JObj [ ("tables", JArr tables); ("figures", JArr figures);
            ("text_blocks", JArr text_blocks) ])) as H.
  cbv zeta in H. destruct H as (H1 & H2 & H3 & H4 & H5 & H6 & H7).
  repeat (split; [assumption|]). split.
  - intros k Hk. apply dict_get_update_other. exact Hk.
  - intros Hne. rewrite H1. destruct tables as [|t ts]; [congruence|].
    reflexivity.
Qed.

End FlagEnhancement.

Lemma flag_enhancement_correct_witness :
  exists enhanced,
    Utils.enhance_context_metadata (codec := Samples.sample_codec)
      Samples.sample_files Samples.sample_context_path Samples.sample_basic_path
      = Ok enhanced /\
    dict_get "has_tables" enhanced = Some (JBool true) /\
    dict_get "table_count" enhanced = Some (JNum 2) /\
    dict_get "page_title" enhanced = Some (JStr "Maintenance").
Proof.
  destruct (@flag_enhancement_correct Samples.sample_codec
              Samples.sample_files Samples.sample_context_path
              Samples.sample_basic_path
              Samples.sample_context_record Samples.sample_basic_record
              [JStr "table-1-1"; JStr "table-1-2"] [] [JStr "page_1_text.txt"]
              eq_refl eq_refl eq_refl eq_refl eq_refl)
    as (enhanced & Hrun & Ht & _ & _ & Hc & _ & _ & _ & Hother & _).
  exists enhanced. repeat split; try assumption.
  rewrite Hother; [reflexivity|].
  unfold flag_fields. simpl. intuition discriminate.
Defined.

(** ** Sub-element correlation (extract_image_metadata.py) *)

Import ImageMetadata.

(** C10. The guards of the correlation: when [image_metadata] is absent
    or empty (falsy), or [content_elements] is absent, the context metadata
    is returned as it is. *)
Theorem correlation_identity_on_guards (ord : union_order) (context : pydict) :
  dict_get "image_metadata" context = None \/
  (exists v, dict_get "image_metadata" context = Some v /\ truthy v = false) \/
  dict_get "content_elements" context = None ->
  enhance_content_elements_with_image_metadata ord context = Ok context.
Proof.
  intros H. unfold enhance_content_elements_with_image_metadata.
  destruct (dict_get "image_metadata" context) as [v|] eqn:Hv; [|reflexivity].
  destruct (truthy v) eqn:Ht; [|reflexivity]. simpl.
  destruct H as [H | [(v' & H & Hf) | H]].
  - discriminate.
  - injection H as <-. congruence.
  - now rewrite H.
Qed.

Lemma correlation_identity_on_guards_witness :
  enhance_content_elements_with_image_metadata Samples.sample_order
    Samples.plain_context = Ok Samples.plain_context.
Proof.
  apply (correlation_identity_on_guards Samples.sample_order Samples.plain_context).
  left. reflexivity.
Defined.

(** *** Fields that are copied only when the record supplies a value *)

Lemma copy_if_truthy_other (g f : string) (matched element : pydict) :
  g <> f ->
  dict_get f (copy_if_truthy g matched element) = dict_get f element.
Proof.
  intros Hne. unfold copy_if_truthy.
  destruct (dict_get g matched) as [v|]; [|reflexivity].
  destruct (truthy v); [|reflexivity].
  now apply dict_get_set_other.
Qed.

Lemma copy_if_truthy_falsy (g : string) (matched element : pydict) :
  truthy (dict_get_default g JNull matched) = false ->
  copy_if_truthy g matched element = element.
Proof.
  unfold copy_if_truthy, dict_get_default.
  destruct (dict_get g matched) as [v|]; [|reflexivity].
  now intros ->.
Qed.

Lemma copy_if_truthy_truthy (g : string) (matched element : pydict) (v : json) :
  dict_get g matched = Some v -> truthy v = true ->
  dict_get g (copy_if_truthy g matched element) = Some v.
Proof.
  intros Hv Ht. unfold copy_if_truthy. rewrite Hv, Ht.
  apply dict_get_set_same.
Qed.

Lemma merge_unique_other (ord : union_order) (g f : string)
    (matched element element' : pydict) :
  merge_unique ord g matched element = Ok element' ->
  g <> f ->
  dict_get f element' = dict_get f element.
Proof.
  unfold merge_unique. intros H Hne.
  destruct (py_set (dict_get_default g (JArr []) element)); [|discriminate].
  destruct (py_set (dict_get_default g (JArr []) matched)); [|discriminate].
  simpl in H. injection H as <-. now apply dict_get_set_other.
Qed.

(** The shape of a successful [apply_image_metadata]: the two merges
    succeeded on the intermediate elements. *)
Lemma apply_image_metadata_ok (ord : union_order) (matched element element' : pydict) :
  apply_image_metadata ord matched element = Ok element' ->
  exists e1 e2,
    merge_unique ord "keywords" matched
      (copy_if_truthy "summary" matched
        (copy_if_truthy "title" matched
          (dict_set "natural_description"
             (dict_get_default "natural_description" (JStr "") matched)
             (dict_set "image_type"
                (dict_get_default "image_type" (JStr "") matched) element))))
      = Ok e1 /\
    merge_unique ord "entities" matched e1 = Ok e2 /\
    element' =
      copy_if_truthy "related_tables" matched
        (copy_if_truthy "application_context" matched
          (copy_if_truthy "model_applicability" matched
            (copy_if_truthy "component_type" matched
              (copy_if_truthy "model_name" matched
                (copy_if_truthy "locations" matched
                  (copy_if_truthy "dates" matched e2)))))).
Proof.
  unfold apply_image_metadata. intros H.
  destruct (merge_unique ord "keywords" matched _) as [e1|] eqn:H1; [|discriminate].
  simpl in H.
  destruct (merge_unique ord "entities" matched e1) as [e2|] eqn:H2; [|discriminate].
  simpl in H. injection H as <-. now exists e1, e2.
Qed.

(** Reads a field of the element through the chain of assignments. *)
Ltac through_assignments H1 H2 :=
  repeat first
    [ rewrite copy_if_truthy_other by string_neq
    | rewrite copy_if_truthy_falsy by assumption
    | rewrite (@merge_unique_other _ _ _ _ _ _ H2) by string_neq
    | rewrite (@merge_unique_other _ _ _ _ _ _ H1) by string_neq
    | rewrite dict_get_set_other by string_neq
    | rewrite dict_get_set_same ].

(** C5, as the code has it.  In an element enhanced from its matched
    record, each of [title], [summary], [dates], [locations],
    [model_name], [component_type], [model_applicability],
    [application_context] and [related_tables] keeps the element's value
    when the record's value is absent or falsy; [image_type] and
    [natural_description] are assigned the record's value, or the empty
    string when the record has none, whatever the element held. *)
Theorem guarded_fields_preserved (ord : union_order)
    (matched element element' : pydict) :
  apply_image_metadata ord matched element = Ok element' ->
  (forall f, In f guarded_fields ->
     truthy (dict_get_default f JNull matched) = false ->
     dict_get f element' = dict_get f element) /\
  dict_get "image_type" element'
    = Some (dict_get_default "image_type" (JStr "") matched) /\
  dict_get "natural_description" element'
    = Some (dict_get_default "natural_description" (JStr "") matched).
Proof.
  intros H. apply apply_image_metadata_ok in H.
  destruct H as (e1 & e2 & H1 & H2 & ->).
  split; [|split].
  - intros f Hf Hfalsy. unfold guarded_fields in Hf. simpl in Hf.
    repeat (destruct Hf as [<- | Hf]; [through_assignments H1 H2; reflexivity|]).
    contradiction.
  - through_assignments H1 H2. reflexivity.
  - through_assignments H1 H2. reflexivity.
Qed.

Lemma guarded_fields_preserved_witness :
  dict_get "title"
    [ ("element_id", JStr "figure-12-2"); ("type", JStr "figure");
      ("title", JStr "Valve assembly"); ("image_type", JStr "");
      ("keywords", JArr [JStr "a"; JStr "b"; JStr "c"]);
      ("natural_description", JStr ""); ("entities", JArr []) ]
  = dict_get "title" Samples.figure_element.
Proof.
  apply (proj1 (@guarded_fields_preserved Samples.sample_order
                  Samples.image_record Samples.figure_element _ eq_refl)).
  - simpl. tauto.
  - reflexivity.
Defined.

(** C5, as the claim has it, fails for [image_type]: the element held
    ["diagram"], the matched record (found under the [image-] spelling)
    holds the empty string, and the element ends with the empty string. *)
Lemma image_type_overwritten_with_empty :
  dict_get "image_type" Samples.figure_element = Some (JStr "diagram") /\
  truthy (dict_get_default "image_type" JNull Samples.image_record) = false /\
  exists rest,
    enhance_content_elements_with_image_metadata Samples.sample_order
      Samples.page_context
    = Ok [ ("page_title", JStr "Maintenance");
           ("content_elements",
             JArr [ JObj [ ("element_id", JStr "figure-12-2");
                           ("type", JStr "figure");
                           ("title", JStr "Valve assembly");
                           ("image_type", JStr "");
                           ("keywords", JArr [JStr "a"; JStr "b"; JStr "c"]);
                           ("natural_description", JStr "");
                           ("entities", JArr []) ];
                    JObj Samples.table_element ]);
           rest ].
Proof.
  split; [reflexivity|]. split; [reflexivity|].
  eexists. vm_compute. reflexivity.
Qed.

(** C1 at a record that the response schema allows.  The generated
    record carries [entities: null]; the element matches it; the merge of
    [entities] evaluates [set(None)] and the call raises [TypeError] where
    the claim has the element's entities become the union (here: stay as
    they were). *)
Theorem correlation_raises_on_null_entities (ord : union_order) :
  enhance_content_elements_with_image_metadata ord Samples.null_entities_context
  = Raise TypeError.
Proof. reflexivity. Qed.

(** *** The identifier pattern *)

Lemma strip_prefix_app (k s : string) : strip_prefix k (k ++ s) = Some s.
Proof.
  induction k as [|c k IH]; simpl; [reflexivity|].
  now rewrite Ascii.eqb_refl.
Qed.

Lemma strip_prefix_Some (k s r : string) :
  strip_prefix k s = Some r -> s = k ++ r.
Proof.
  revert s. induction k as [|c k IH]; intros s H; simpl in *.
  - now injection H as ->.
  - destruct s as [|c' s]; [discriminate|].
    destruct (Ascii.eqb c c') eqn:E; [|discriminate].
    apply Ascii.eqb_eq in E. subst c'. f_equal. now apply IH.
Qed.

(** *** Characters and runs of characters *)

Unset Implicit Arguments.

Lemma append_assoc (a b c : string) : ((a ++ b) ++ c = a ++ b ++ c)%string.
Proof. induction a as [|x a IH]; simpl; [reflexivity|]. now rewrite IH. Qed.

Lemma append_empty_r (a : string) : (a ++ "" = a)%string.
Proof. induction a as [|x a IH]; simpl; [reflexivity|]. now rewrite IH. Qed.

Lemma length_append (a b : string) :
  String.length (a ++ b) = (String.length a + String.length b)%nat.
Proof. induction a as [|x a IH]; simpl; [reflexivity|]. now rewrite IH. Qed.

(** A prefix of [q ++ t] agrees with [q] as far as both go. *)
Lemma compatible_prefix (p q t r : string) :
  strip_prefix p (q ++ t) = Some r -> compatible p q = true.
Proof.
  revert q. induction p as [|a p IH]; intros q H; [reflexivity|].
  destruct q as [|b q]; [reflexivity|].
  simpl in H. simpl. destruct (Ascii.eqb a b); [|discriminate].
  simpl. now apply IH.
Qed.

Lemma first_prefix_In (tokens : list string) (s w r : string) :
  first_prefix tokens s = Some (w, r) -> In w tokens /\ s = (w ++ r)%string.
Proof.
  induction tokens as [|p tokens IH]; simpl; [discriminate|].
  destruct (strip_prefix p s) as [rest|] eqn:E.
  - intros H. injection H as <- <-. split; [now left|].
    now apply strip_prefix_Some.
  - intros H. destruct (IH H). split; [now right|assumption].
Qed.

Lemma first_prefix_hit (tokens : list string) (w t : string) :
  (forall p, In p tokens -> compatible p w = true -> p = w) ->
  In w tokens -> first_prefix tokens (w ++ t) = Some (w, t).
Proof.
  induction tokens as [|p tokens IH]; intros Hfree Hin; [contradiction|].
  simpl. destruct (strip_prefix p (w ++ t)) as [r|] eqn:E.
  - assert (Hp : p = w).
    { apply Hfree; [now left|]. exact (compatible_prefix _ _ _ _ E). }
    subst p. rewrite strip_prefix_app in E. now injection E as <-.
  - destruct Hin as [-> | Hin]; [rewrite strip_prefix_app in E; discriminate|].
    apply IH; [|assumption]. intros q Hq. apply Hfree. now right.
Qed.

Lemma first_prefix_clear (tokens : list string) (s t : string) :
  clear_of tokens s = true -> first_prefix tokens (s ++ t) = None.
Proof.
  unfold clear_of. induction tokens as [|p tokens IH]; simpl; [reflexivity|].
  intros H. apply andb_true_iff in H. destruct H as [Hp H].
  destruct (strip_prefix p (s ++ t)) as [r|] eqn:E.
  - apply compatible_prefix in E. rewrite E in Hp. discriminate.
  - now apply IH.
Qed.

Lemma prefix_code_spec (tokens : list string) :
  prefix_code tokens = true ->
  ~ In "" tokens /\
  forall p q, In p tokens -> In q tokens -> compatible p q = true -> p = q.
Proof.
  unfold prefix_code. intros H. apply andb_true_iff in H. destruct H as [Hne Hfree].
  split.
  - intros Hin. apply negb_true_iff in Hne.
    assert (Hex : existsb (String.eqb "") tokens = true).
    { apply existsb_exists. exists "". split; [assumption|reflexivity]. }
    congruence.
  - intros p q Hp Hq Hc. rewrite forallb_forall in Hfree.
    specialize (Hfree p Hp). rewrite forallb_forall in Hfree.
    specialize (Hfree q Hq). rewrite Hc in Hfree. cbn [negb] in Hfree.
    rewrite orb_false_r in Hfree. now apply String.eqb_eq.
Qed.

Section Runs.
Variable tokens : list string.
Hypothesis Hcode : prefix_code tokens = true.

Lemma first_prefix_token (w t : string) :
  In w tokens -> first_prefix tokens (w ++ t) = Some (w, t).
Proof.
  intros Hin. apply first_prefix_hit; [|assumption].
  intros p Hp Hc. destruct (prefix_code_spec tokens Hcode) as [_ Hfree].
  now apply Hfree.
Qed.

Lemma token_length (w : string) : In w tokens -> (1 <= String.length w)%nat.
Proof.
  intros Hin. destruct (prefix_code_spec tokens Hcode) as [Hne _].
  destruct w; [contradiction|]. simpl. lia.
Qed.

Lemma first_prefix_empty : first_prefix tokens "" = None.
Proof.
  destruct (first_prefix tokens "") as [[w r]|] eqn:E; [|reflexivity].
  apply first_prefix_In in E. destruct E as [Hin E].
  apply token_length in Hin. destruct w; [simpl in Hin; lia|discriminate].
Qed.

Lemma token_run_app (a b : string) :
  token_run tokens a -> token_run tokens b -> token_run tokens (a ++ b).
Proof.
  intros Ha Hb. induction Ha as [|w run Hw Hrun IH]; [assumption|].
  rewrite append_assoc. now constructor.
Qed.

Lemma span_fuel_run (d r : string) :
  token_run tokens d -> first_prefix tokens r = None ->
  forall fuel, (String.length (d ++ r) <= fuel)%nat ->
    span_fuel tokens fuel (d ++ r) = (d, r).
Proof.
  intros Hd Hr. induction Hd as [|w run Hw Hrun IH]; intros fuel Hfuel.
  - destruct fuel; simpl; [reflexivity|]. now rewrite Hr.
  - rewrite append_assoc in *. rewrite length_append in Hfuel.
    pose proof (token_length w Hw) as Hlen.
    destruct fuel as [|fuel]; [lia|].
    simpl. rewrite (first_prefix_token w (run ++ r) Hw).
    rewrite IH by lia. reflexivity.
Qed.

Lemma span_fuel_spec (fuel : nat) (s d r : string) :
  (String.length s <= fuel)%nat ->
  span_fuel tokens fuel s = (d, r) ->
  s = (d ++ r)%string /\ token_run tokens d /\ first_prefix tokens r = None.
Proof.
  revert s d r. induction fuel as [|fuel IH]; intros s d r Hfuel H.
  - simpl in H. injection H as <- <-.
    destruct s; [|simpl in Hfuel; lia].
    split; [reflexivity|]. split; [constructor|apply first_prefix_empty].
  - simpl in H. destruct (first_prefix tokens s) as [[w rest]|] eqn:E.
    + destruct (first_prefix_In _ _ _ _ E) as [Hw ->].
      destruct (span_fuel tokens fuel rest) as [run rest'] eqn:Hs.
      injection H as <- <-.
      pose proof (token_length w Hw) as Hlen. rewrite length_append in Hfuel.
      destruct (IH rest run rest' ltac:(lia) Hs) as (-> & Hrun & Hnone).
      split; [now rewrite append_assoc|]. split; [now constructor|assumption].
    + injection H as <- <-. split; [reflexivity|]. split; [constructor|assumption].
Qed.

Lemma span_tokens_run (d r : string) :
  token_run tokens d -> first_prefix tokens r = None ->
  span_tokens tokens (d ++ r) = (d, r).
Proof. intros Hd Hr. unfold span_tokens. now apply span_fuel_run. Qed.

Lemma span_tokens_spec (s d r : string) :
  span_tokens tokens s = (d, r) ->
  s = (d ++ r)%string /\ token_run tokens d /\ first_prefix tokens r = None.
Proof. unfold span_tokens. now apply span_fuel_spec. Qed.

Lemma all_tokens_run (d : string) :
  all_tokens tokens d = true <-> token_run tokens d.
Proof.
  unfold all_tokens. split.
  - destruct (span_tokens tokens d) as [run r] eqn:E. simpl. intros H.
    apply String.eqb_eq in H. subst r.
    apply span_tokens_spec in E. destruct E as (-> & Hrun & _).
    now rewrite append_empty_r.
  - intros H. rewrite <- (append_empty_r d).
    rewrite (span_tokens_run d "" H first_prefix_empty). reflexivity.
Qed.

(** What is left after the run at the head of a text. *)
Lemma skip_run (ws s : string) :
  token_run tokens ws ->
  snd (span_tokens tokens (ws ++ s)) = snd (span_tokens tokens s).
Proof.
  intros Hws. destruct (span_tokens tokens s) as [d r] eqn:E.
  apply span_tokens_spec in E. destruct E as (-> & Hd & Hr).
  rewrite <- append_assoc.
  now rewrite (span_tokens_run (ws ++ d) r (token_run_app ws d Hws Hd) Hr).
Qed.

Lemma skip_clear (s t : string) :
  clear_of tokens s = true -> snd (span_tokens tokens (s ++ t)) = (s ++ t)%string.
Proof.
  intros H.
  pose proof (span_tokens_run "" (s ++ t) (run_empty tokens)
                (first_prefix_clear tokens s t H)) as E.
  cbn [append] in E. now rewrite E.
Qed.

Lemma skip_empty : snd (span_tokens tokens "") = "".
Proof. reflexivity. Qed.

End Runs.

(** Reversal. *)
Lemma list_ascii_of_string_app (a b : string) :
  list_ascii_of_string (a ++ b)
  = (list_ascii_of_string a ++ list_ascii_of_string b)%list.
Proof. induction a as [|c a IH]; simpl; [reflexivity|]. now rewrite IH. Qed.

Lemma string_of_list_ascii_app (a b : list ascii) :
  string_of_list_ascii (a ++ b)
  = (string_of_list_ascii a ++ string_of_list_ascii b)%string.
Proof. induction a as [|c a IH]; simpl; [reflexivity|]. now rewrite IH. Qed.

Lemma reverse_app (a b : string) :
  reverse (a ++ b) = (reverse b ++ reverse a)%string.
Proof.
  unfold reverse.
  now rewrite list_ascii_of_string_app, rev_app_distr, string_of_list_ascii_app.
Qed.

Lemma reverse_involutive (s : string) : reverse (reverse s) = s.
Proof.
  unfold reverse.
  now rewrite list_ascii_of_string_of_list_ascii, rev_involutive,
    string_of_list_ascii_of_string.
Qed.

Lemma token_run_reverse (tokens : list string) (d : string) :
  token_run tokens d -> token_run (map reverse tokens) (reverse d).
Proof.
  intros Hd. induction Hd as [|w run Hw Hrun IH]; [constructor|].
  rewrite reverse_app.
  apply (token_run_app (map reverse tokens) (reverse run) (reverse w) IH).
  rewrite <- (append_empty_r (reverse w)). constructor; [|constructor].
  now apply in_map.
Qed.

(** The two tables are prefix codes, and so is the table of whitespace
    read from the end. *)
Lemma whitespace_code : prefix_code whitespace = true.
Proof. vm_compute. reflexivity. Qed.

Lemma whitespace_reversed_code : prefix_code (map reverse whitespace) = true.
Proof. vm_compute. reflexivity. Qed.

Lemma decimal_digits_code : prefix_code decimal_digits = true.
Proof. vm_compute. reflexivity. Qed.

Set Implicit Arguments.

Lemma span_digits_spec (s d r : string) :
  span_digits s = (d, r) ->
  s = d ++ r /\ all_digits d = true /\ starts_with_digit r = false.
Proof.
  intros H. apply (span_tokens_spec _ decimal_digits_code) in H.
  destruct H as (-> & Hd & Hr). split; [reflexivity|]. split.
  - now apply (all_tokens_run _ decimal_digits_code).
  - unfold starts_with_digit, starts_with_token. now rewrite Hr.
Qed.

Lemma span_digits_app (d r : string) :
  all_digits d = true -> starts_with_digit r = false ->
  span_digits (d ++ r) = (d, r).
Proof.
  intros Hd Hr. apply (span_tokens_run _ decimal_digits_code).
  - now apply (all_tokens_run _ decimal_digits_code).
  - unfold starts_with_digit, starts_with_token in Hr.
    now destruct (first_prefix decimal_digits r).
Qed.

Lemma eqb_empty_false (s : string) : s <> "" -> String.eqb s "" = false.
Proof. intros H. now apply String.eqb_neq. Qed.

Lemma match_page_index_complete (page index rest : string) :
  page <> "" -> index <> "" ->
  all_digits page = true -> all_digits index = true ->
  starts_with_digit rest = false ->
  match_page_index ("-" ++ page ++ "-" ++ index ++ rest) = Some (page, index).
Proof.
  intros Hp Hi Hdp Hdi Hr. unfold match_page_index.
  rewrite strip_prefix_app.
  rewrite (span_digits_app page ("-" ++ index ++ rest) Hdp eq_refl).
  rewrite (eqb_empty_false Hp), strip_prefix_app.
  rewrite (span_digits_app index rest Hdi Hr).
  now rewrite (eqb_empty_false Hi).
Qed.

Lemma match_page_index_sound (s page index : string) :
  match_page_index s = Some (page, index) ->
  exists rest,
    s = "-" ++ page ++ "-" ++ index ++ rest /\
    page <> "" /\ index <> "" /\
    all_digits page = true /\ all_digits index = true /\
    starts_with_digit rest = false.
Proof.
  unfold match_page_index. intros H.
  destruct (strip_prefix "-" s) as [s1|] eqn:H1; [|discriminate].
  destruct (span_digits s1) as [p s2] eqn:H2.
  destruct (String.eqb p "") eqn:Hp; [discriminate|].
  destruct (strip_prefix "-" s2) as [s3|] eqn:H3; [|discriminate].
  destruct (span_digits s3) as [i s4] eqn:H4.
  destruct (String.eqb i "") eqn:Hi; [discriminate|].
  injection H as <- <-.
  apply strip_prefix_Some in H1, H3.
  apply span_digits_spec in H2, H4.
  destruct H2 as (-> & Hdp & _), H4 as (-> & Hdi & Hr).
  apply String.eqb_neq in Hp, Hi.
  exists s4. subst. repeat split; assumption.
Qed.

(** The parser accepts exactly the identifiers of the pattern, and
    returns their page and index. *)
Lemma re_match_element_id_complete (element_id page index : string) :
  id_pattern element_id page index ->
  re_match_element_id element_id = Some (page, index).
Proof.
  intros (kind & rest & Hk & -> & Hp & Hi & Hdp & Hdi & Hr).
  pose proof (match_page_index_complete rest Hp Hi Hdp Hdi Hr) as Hm.
  unfold re_match_element_id, match_alternative.
  destruct Hk as [-> | ->].
  - rewrite strip_prefix_app. now rewrite Hm.
  - change (strip_prefix "figure" ("image" ++ "-" ++ page ++ "-" ++ index ++ rest))
      with (@None string). cbv iota.
    rewrite strip_prefix_app. exact Hm.
Qed.

Lemma re_match_element_id_sound (element_id page index : string) :
  re_match_element_id element_id = Some (page, index) ->
  id_pattern element_id page index.
Proof.
  unfold re_match_element_id, match_alternative. intros H.
  assert (Hcase :
    (exists r, strip_prefix "figure" element_id = Some r /\
               match_page_index r = Some (page, index)) \/
    (exists r, strip_prefix "image" element_id = Some r /\
               match_page_index r = Some (page, index))).
  { destruct (strip_prefix "figure" element_id) as [r|] eqn:Hf.
    - destruct (match_page_index r) as [g|] eqn:Hg.
      + injection H as ->. left. now exists r.
      + destruct (strip_prefix "image" element_id) as [r'|] eqn:Hi;
          [|discriminate]. right. now exists r'.
    - destruct (strip_prefix "image" element_id) as [r'|] eqn:Hi;
        [|discriminate]. right. now exists r'. }
  destruct Hcase as [(r & Hs & Hm) | (r & Hs & Hm)];
    apply strip_prefix_Some in Hs;
    apply match_page_index_sound in Hm;
    destruct Hm as (rest & -> & Hp & Hi & Hdp & Hdi & Hr);
    [exists "figure", rest | exists "image", rest]; subst;
    repeat split; auto.
Qed.

(** *** The lookup built from the records *)

Lemma hkey_eqb_eq (a b : hkey) : hkey_eqb a b = true <-> a = b.
Proof.
  destruct a, b; simpl; split; intros H; try discriminate; try reflexivity.
  - apply Z.eqb_eq in H. now subst.
  - injection H as ->. apply Z.eqb_refl.
  - apply String.eqb_eq in H. now subst.
  - injection H as ->. apply String.eqb_refl.
Qed.

Lemma hkey_eqb_refl (a : hkey) : hkey_eqb a a = true.
Proof. now apply hkey_eqb_eq. Qed.

Lemma map_get_set_same (k : hkey) (v : pydict) (m : image_map) :
  map_get k (map_set k v m) = Some v.
Proof.
  induction m as [|[k' v'] m IH]; simpl.
  - now rewrite hkey_eqb_refl.
  - destruct (hkey_eqb k k') eqn:E; simpl; rewrite E; auto.
Qed.

Lemma map_get_set_other (k k' : hkey) (v : pydict) (m : image_map) :
  k <> k' -> map_get k' (map_set k v m) = map_get k' m.
Proof.
  intros Hne. induction m as [|[k0 v0] m IH]; simpl.
  - destruct (hkey_eqb k' k) eqn:E; auto.
    apply hkey_eqb_eq in E. congruence.
  - destruct (hkey_eqb k k0) eqn:E; simpl.
    + apply hkey_eqb_eq in E. subst k0.
      destruct (hkey_eqb k' k) eqn:E'; auto.
      apply hkey_eqb_eq in E'. congruence.
    + now rewrite IH.
Qed.

Lemma string_or_missing_default (f : string) (d : pydict) :
  is_string_or_missing f d = true ->
  exists s, dict_get_default f (JStr "") d = JStr s.
Proof.
  unfold is_string_or_missing, dict_get_default.
  destruct (dict_get f d) as [[]|]; try discriminate; eauto.
Qed.

(** The map built by lines 38-41 answers a string probe with the last
    record that carries this identifier. *)
Lemma build_image_metadata_map_lookup (records : list json) (acc : image_map) :
  forallb has_string_id records = true ->
  exists m,
    build_image_metadata_map records acc = Ok m /\
    forall id,
      map_get (KStr id) m =
      match record_for id records with
      | Some d => Some d
      | None => map_get (KStr id) acc
      end.
Proof.
  revert acc. induction records as [|r records IH]; intros acc Hwt.
  - exists acc. split; reflexivity.
  - simpl in Hwt. apply andb_true_iff in Hwt. destruct Hwt as [Hr Hwt].
    destruct r as [| | | |?|d]; try discriminate.
    destruct (string_or_missing_default _ _ Hr) as (s & Hs).
    destruct (IH (map_set (KStr s) d acc) Hwt) as (m & Hm & Hlook).
    exists m. split.
    + simpl. rewrite Hs. simpl. exact Hm.
    + intros id. rewrite Hlook. simpl.
      destruct (record_for id records) as [d'|]; [reflexivity|].
      unfold has_image_id. rewrite Hs.
      destruct (String.eqb s id) eqn:E.
      * apply String.eqb_eq in E. subst. apply map_get_set_same.
      * apply map_get_set_other. apply String.eqb_neq in E. congruence.
Qed.

Lemma well_typed_records_have_ids (records : list json) :
  forallb well_typed_record records = true ->
  forallb has_string_id records = true.
Proof.
  intros H. apply forallb_forall. intros r Hr.
  rewrite forallb_forall in H. specialize (H r Hr).
  destruct r; try discriminate. simpl in *.
  apply andb_true_iff in H. destruct H as [H _].
  apply andb_true_iff in H. tauto.
Qed.

Lemma record_for_nonempty (id : string) (records : list json) (d : pydict) :
  id <> "" -> record_for id records = Some d -> d <> [].
Proof.
  intros Hid. induction records as [|r records IH]; simpl; [discriminate|].
  destruct (record_for id records) as [d'|].
  - intros H. injection H as ->. now apply IH.
  - destruct r; try discriminate.
    destruct (has_image_id id d0) eqn:E; [|discriminate].
    intros H. injection H as ->. intros ->.
    unfold has_image_id in E. simpl in E.
    destruct id; [congruence|discriminate].
Qed.

Lemma record_for_well_typed (id : string) (records : list json) (d : pydict) :
  forallb well_typed_record records = true ->
  record_for id records = Some d ->
  well_typed_record (JObj d) = true.
Proof.
  induction records as [|r records IH]; simpl; [discriminate|].
  intros Hwt. apply andb_true_iff in Hwt. destruct Hwt as [Hr Hwt].
  destruct (record_for id records) as [d'|].
  - intros H. injection H as ->. now apply IH.
  - destruct r; try discriminate.
    destruct (has_image_id id d0); [|discriminate].
    intros H. now injection H as ->.
Qed.

(** [first_match] on the two spellings is [matched_record]. *)
Lemma first_match_matched_record (page index : string) (records : list json)
    (m : image_map) :
  (forall id, map_get (KStr id) m = record_for id records) ->
  first_match [ "image-" ++ page ++ "-" ++ index;
                "figure-" ++ page ++ "-" ++ index ] m
  = matched_record page index records.
Proof.
  intros Hlook. unfold matched_record. simpl. rewrite !Hlook.
  destruct (record_for _ records); [reflexivity|].
  now destruct (record_for _ records).
Qed.

(** *** Sets of strings *)

Lemma strings_of_map (l : list json) (ss : list string) :
  strings_of l = Some ss -> l = map JStr ss.
Proof.
  revert ss. induction l as [|x l IH]; intros ss H; simpl in H.
  - now injection H as <-.
  - destruct x; try discriminate.
    destruct (strings_of l) as [ss'|]; [|discriminate].
    injection H as <-. simpl. f_equal. now apply IH.
Qed.

Lemma existsb_eqb_In (s : string) (acc : list string) :
  existsb (String.eqb s) acc = true <-> In s acc.
Proof.
  rewrite existsb_exists. split.
  - intros (x & Hin & E). apply String.eqb_eq in E. now subst.
  - intros Hin. exists s. split; [assumption|apply String.eqb_refl].
Qed.

Lemma set_add_entry (acc : list string) (s : string) :
  set_add (map entry acc) (entry s) = map entry (add_string acc s).
Proof.
  assert (Hmem : set_mem (KStr s) (map entry acc) = existsb (String.eqb s) acc).
  { unfold set_mem. induction acc as [|a acc IH]; [reflexivity|].
    cbn [map existsb]. rewrite IH. reflexivity. }
  unfold set_add, add_string. change (fst (entry s)) with (KStr s).
  rewrite Hmem. destruct (existsb (String.eqb s) acc); [reflexivity|].
  now rewrite map_app.
Qed.

Lemma fold_set_add_entries (ss acc : list string) :
  fold_left set_add (map entry ss) (map entry acc)
  = map entry (fold_left add_string ss acc).
Proof.
  revert acc. induction ss as [|s ss IH]; intros acc; simpl; [reflexivity|].
  now rewrite set_add_entry, IH.
Qed.

Lemma add_string_spec (acc : list string) (s : string) :
  NoDup acc ->
  NoDup (add_string acc s) /\
  forall x, In x (add_string acc s) <-> In x acc \/ x = s.
Proof.
  intros Hnd. unfold add_string.
  destruct (existsb (String.eqb s) acc) eqn:E.
  - apply existsb_eqb_In in E. split; [assumption|].
    intros x. split; [auto|]. intros [H | ->]; assumption.
  - assert (Hnot : ~ In s acc).
    { intros Hin. apply existsb_eqb_In in Hin. congruence. }
    split.
    + apply NoDup_app; [assumption| |].
      * constructor; [intros []|constructor].
      * intros a Ha [<- | []]. contradiction.
    + intros x. rewrite in_app_iff. simpl. intuition.
Qed.

Lemma fold_add_string_spec (ss acc : list string) :
  NoDup acc ->
  NoDup (fold_left add_string ss acc) /\
  forall x, In x (fold_left add_string ss acc) <-> In x acc \/ In x ss.
Proof.
  revert acc. induction ss as [|s ss IH]; intros acc Hnd; simpl.
  - split; [assumption|]. intros x. tauto.
  - destruct (add_string_spec s Hnd) as [Hnd' Hin'].
    destruct (IH _ Hnd') as [Hnd'' Hin''].
    split; [assumption|].
    intros x. rewrite Hin'', Hin'. intuition.
Qed.

Lemma bind_Ok {A B : Type} (a : A) (k : A -> res B) : bind (Ok a) k = k a.
Proof. reflexivity. Qed.

(** [set(l)] for a list of strings. *)
Lemma py_set_strings (l : list json) (ss : list string) :
  strings_of l = Some ss ->
  py_set (JArr l) = Ok (map entry (fold_left add_string ss [])).
Proof.
  intros H. apply strings_of_map in H. subst l.
  unfold py_set. simpl py_iter. rewrite bind_Ok.
  assert (Hm : mapM (fun x => bind (hash_key x) (fun k => Ok (k, x))) (map JStr ss)
               = Ok (map entry ss)).
  { induction ss as [|s ss IH]; simpl; [reflexivity|]. now rewrite IH. }
  rewrite Hm, bind_Ok. f_equal. exact (fold_set_add_entries ss []).
Qed.

Lemma string_list_field_default (f : string) (d : pydict) (ss : list string) :
  string_list_field f d = Some ss ->
  exists l, dict_get_default f (JArr []) d = JArr l /\ strings_of l = Some ss.
Proof.
  unfold string_list_field, dict_get_default.
  destruct (dict_get f d) as [[]|]; try discriminate; eauto.
Qed.

(** The merge of one list-valued field: the field becomes the union of the
    two lists, without duplicates, in the order the interpreter chooses. *)
Lemma merge_unique_union (ord : union_order) (f : string)
    (matched element : pydict) (old new : list string) :
  string_list_field f element = Some old ->
  string_list_field f matched = Some new ->
  exists merged,
    merge_unique ord f matched element
      = Ok (dict_set f (JArr (map JStr merged)) element) /\
    NoDup merged /\
    forall s, In s merged <-> In s old \/ In s new.
Proof.
  intros Hold Hnew.
  destruct (string_list_field_default _ _ Hold) as (lo & Hlo & Hso).
  destruct (string_list_field_default _ _ Hnew) as (ln & Hln & Hsn).
  unfold merge_unique. rewrite Hlo, Hln.
  rewrite (py_set_strings _ Hso), (py_set_strings _ Hsn). simpl bind.
  unfold set_union. rewrite fold_set_add_entries.
  unfold py_list_of_set. rewrite map_map. simpl.
  change (map (fun x => JStr x)) with (map JStr).
  set (members := fold_left add_string (fold_left add_string new []) _).
  pose proof (iteration_order_perm (union_iteration ord (JArr lo) (JArr ln))
                (map JStr members)) as Hperm.
  apply Permutation_map_inv in Hperm. destruct Hperm as (merged & Heq & Hp).
  exists merged. rewrite Heq. split; [reflexivity|].
  destruct (fold_add_string_spec old (NoDup_nil string)) as [Hnd1 Hin1].
  destruct (fold_add_string_spec new (NoDup_nil string)) as [Hnd2 Hin2].
  destruct (fold_add_string_spec (fold_left add_string new []) Hnd1)
    as [Hnd3 Hin3].
  fold members in Hnd3, Hin3.
  split.
  - exact (Permutation_NoDup Hp Hnd3).
  - intros s. split.
    + intros Hin. apply (Permutation_in _ (Permutation_sym Hp)) in Hin.
      apply Hin3 in Hin. rewrite Hin1, Hin2 in Hin. simpl in Hin. tauto.
    + intros Hin. apply (Permutation_in _ Hp). apply Hin3.
      rewrite Hin1, Hin2. simpl. tauto.
Qed.

(** *** Correlation of one element, and of the whole list *)

Lemma string_list_field_ext (f : string) (d d' : pydict) :
  dict_get f d = dict_get f d' ->
  string_list_field f d = string_list_field f d'.
Proof. unfold string_list_field. now intros ->. Qed.

Lemma is_string_list_Some (f : string) (d : pydict) :
  is_string_list f d = true -> exists ss, string_list_field f d = Some ss.
Proof.
  unfold is_string_list. destruct (string_list_field f d); [eauto|discriminate].
Qed.

Lemma apply_image_metadata_unions (ord : union_order) (matched fields : pydict) :
  well_typed_record (JObj matched) = true ->
  well_typed_element (JObj fields) = true ->
  exists fields',
    apply_image_metadata ord matched fields = Ok fields' /\
    union_of "keywords" matched fields fields' /\
    union_of "entities" matched fields fields'.
Proof.
  unfold well_typed_record, well_typed_element. intros Hm Hf.
  repeat (apply andb_true_iff in Hm; destruct Hm as [Hm ?]).
  repeat (apply andb_true_iff in Hf; destruct Hf as [Hf ?]).
  destruct (is_string_list_Some "keywords" matched) as (new_k & Hnk); [assumption|].
  destruct (is_string_list_Some "entities" matched) as (new_e & Hne); [assumption|].
  destruct (is_string_list_Some "keywords" fields) as (old_k & Hok); [assumption|].
  destruct (is_string_list_Some "entities" fields) as (old_e & Hoe); [assumption|].
  set (e0 := copy_if_truthy "summary" matched
               (copy_if_truthy "title" matched
                 (dict_set "natural_description"
                    (dict_get_default "natural_description" (JStr "") matched)
                    (dict_set "image_type"
                       (dict_get_default "image_type" (JStr "") matched) fields)))).
  assert (Hk0 : string_list_field "keywords" e0 = Some old_k).
  { rewrite <- Hok. apply string_list_field_ext. unfold e0.
    repeat first [ rewrite copy_if_truthy_other by string_neq
                 | rewrite dict_get_set_other by string_neq ]. reflexivity. }
  destruct (merge_unique_union ord "keywords" matched e0 Hk0 Hnk)
    as (merged_k & Hmk & Hndk & Hink).
  set (e1 := dict_set "keywords" (JArr (map JStr merged_k)) e0) in *.
  assert (He1 : string_list_field "entities" e1 = Some old_e).
  { rewrite <- Hoe. apply string_list_field_ext. unfold e1, e0.
    repeat first [ rewrite copy_if_truthy_other by string_neq
                 | rewrite dict_get_set_other by string_neq ]. reflexivity. }
  destruct (merge_unique_union ord "entities" matched e1 He1 Hne)
    as (merged_e & Hme & Hnde & Hine).
  eexists. split.
  { unfold apply_image_metadata. fold e0. rewrite Hmk, bind_Ok.
    fold e1. rewrite Hme, bind_Ok. reflexivity. }
  split.
  - exists old_k, new_k, merged_k. repeat split; try assumption;
      try (now apply Hink).
    repeat first [ rewrite copy_if_truthy_other by string_neq
                 | rewrite dict_get_set_other by string_neq ].
    unfold e1. apply dict_get_set_same.
  - exists old_e, new_e, merged_e. repeat split; try assumption;
      try (now apply Hine).
    repeat first [ rewrite copy_if_truthy_other by string_neq ].
    apply dict_get_set_same.
Qed.

Lemma matched_record_facts (page index : string) (records : list json)
    (d : pydict) :
  forallb well_typed_record records = true ->
  matched_record page index records = Some d ->
  d <> [] /\ well_typed_record (JObj d) = true.
Proof.
  unfold matched_record. intros Hwt H.
  destruct (record_for ("image-" ++ page ++ "-" ++ index) records) as [d'|] eqn:Hi.
  - injection H as ->. split.
    + apply (@record_for_nonempty ("image-" ++ page ++ "-" ++ index) records);
        [discriminate|assumption].
    + exact (record_for_well_typed _ _ Hwt Hi).
  - split.
    + apply (@record_for_nonempty ("figure-" ++ page ++ "-" ++ index) records);
        [discriminate|assumption].
    + exact (record_for_well_typed _ _ Hwt H).
Qed.

Lemma enhance_element_correlated (ord : union_order) (records : list json)
    (m : image_map) (element : json) :
  forallb well_typed_record records = true ->
  (forall id, map_get (KStr id) m = record_for id records) ->
  well_typed_element element = true ->
  exists element',
    enhance_element ord m element = Ok element' /\
    correlated records element element'.
Proof.
  intros Hrecords Hlook Hwt.
  destruct element as [| | | |?|fields]; try discriminate.
  unfold enhance_element.
  destruct (is_figure (dict_get "type" fields)) eqn:Hfig.
  2:{ eexists. split; [reflexivity|]. now constructor. }
  assert (Hid : exists s, element_id_of fields = JStr s).
  { apply string_or_missing_default. unfold well_typed_element in Hwt.
    apply andb_true_iff in Hwt. destruct Hwt as [Hwt _].
    apply andb_true_iff in Hwt. tauto. }
  destruct Hid as (element_id & Hid). unfold element_id_of in Hid. rewrite Hid.
  destruct (re_match_element_id element_id) as [[page index]|] eqn:Hre.
  2:{ eexists. split; [reflexivity|].
      apply corr_other_id with (element_id := element_id); auto.
      intros page index Hpat.
      apply re_match_element_id_complete in Hpat. congruence. }
  apply re_match_element_id_sound in Hre.
  rewrite (first_match_matched_record page index records m Hlook).
  destruct (matched_record page index records) as [matched|] eqn:Hmatch.
  2:{ eexists. split; [reflexivity|]. eapply corr_no_record; eauto. }
  destruct (matched_record_facts _ _ _ Hrecords Hmatch) as [Hne Htyped].
  destruct (@apply_image_metadata_unions ord matched fields Htyped Hwt)
    as (fields' & Happly & Hk & He).
  exists (JObj fields'). split.
  - destruct matched as [|kv matched]; [congruence|].
    rewrite Happly. reflexivity.
  - eapply corr_merged; eauto.
Qed.

Lemma mapM_Forall2 {A B : Type} (f : A -> res B) (R : A -> B -> Prop)
    (l : list A) :
  (forall x, In x l -> exists y, f x = Ok y /\ R x y) ->
  exists l', mapM f l = Ok l' /\ Forall2 R l l'.
Proof.
  induction l as [|x l IH]; intros H.
  - exists []. split; [reflexivity|constructor].
  - destruct (H x (or_introl eq_refl)) as (y & Hy & Hr).
    destruct IH as (l' & Hl' & HF); [intros; apply H; now right|].
    exists (y :: l'). split; [|now constructor].
    simpl. now rewrite Hy, bind_Ok, Hl'.
Qed.

(** X21. Correlation on records and elements of the data model.  With a
    non-empty [image_metadata] list of records and a [content_elements]
    list of elements (identifiers strings, [keywords] and [entities] lists
    of strings, any of them possibly missing), the merge returns the
    context with [content_elements] replaced, element by element:

    - an element of type [figure] whose [element_id] has the form
      [(figure|image)-<page>-<index>] and for which a record with
      [image_id] [image-<page>-<index>] or [figure-<page>-<index>] exists
      gets [keywords] and [entities] equal, as sets without duplicates, to
      the union of its own and the record's; the [image-] spelling is
      looked up first;
    - every other element is returned as it is. *)
Theorem correlation_on_typed_records (ord : union_order) (context : pydict)
    (records elements : list json) :
  dict_get "image_metadata" context = Some (JArr records) ->
  records <> [] ->
  dict_get "content_elements" context = Some (JArr elements) ->
  forallb well_typed_record records = true ->
  forallb well_typed_element elements = true ->
  exists elements',
    enhance_content_elements_with_image_metadata ord context
      = Ok (dict_set "content_elements" (JArr elements') context) /\
    Forall2 (correlated records) elements elements'.
Proof.
  intros Him Hne Hce Hrecords Helements.
  destruct (build_image_metadata_map_lookup records []
              (well_typed_records_have_ids records Hrecords))
    as (m & Hbuild & Hlook).
  assert (Hlook' : forall id, map_get (KStr id) m = record_for id records).
  { intros id. rewrite Hlook. now destruct (record_for id records). }
  destruct (mapM_Forall2 (enhance_element ord m) (correlated records) elements)
    as (elements' & Hmap & HF).
  { intros x Hx. apply enhance_element_correlated; auto.
    rewrite forallb_forall in Helements. now apply Helements. }
  exists elements'. split; [|assumption].
  unfold enhance_content_elements_with_image_metadata.
  rewrite Him, Hce.
  destruct records as [|r records]; [congruence|].
  cbn [truthy negb py_iter]. rewrite bind_Ok, Hbuild, bind_Ok, bind_Ok, Hmap.
  reflexivity.
Qed.

Lemma correlation_on_typed_records_example :
  exists elements',
    enhance_content_elements_with_image_metadata Samples.sample_order
      Samples.page_context
      = Ok (dict_set "content_elements" (JArr elements') Samples.page_context) /\
    Forall2 (correlated [JObj Samples.figure_record; JObj Samples.image_record])
      [JObj Samples.figure_element; JObj Samples.table_element] elements'.
Proof.
  apply (@correlation_on_typed_records Samples.sample_order Samples.page_context
           [JObj Samples.figure_record; JObj Samples.image_record]
           [JObj Samples.figure_element; JObj Samples.table_element]);
    try reflexivity.
  discriminate.
Defined.

(** The example of the specification: keywords ["a", "b"] merged with
    ["b", "c"] are the three strings "a", "b", "c" in some order. *)
Lemma merge_unique_example (ord : union_order) (matched element : pydict) :
  string_list_field "keywords" element = Some ["a"; "b"] ->
  string_list_field "keywords" matched = Some ["b"; "c"] ->
  exists merged,
    merge_unique ord "keywords" matched element
      = Ok (dict_set "keywords" (JArr (map JStr merged)) element) /\
    Permutation merged ["a"; "b"; "c"] /\ List.length merged = 3%nat.
Proof.
  intros Ho Hn.
  destruct (merge_unique_union ord "keywords" matched element Ho Hn)
    as (merged & Hm & Hnd & Hin).
  exists merged. split; [assumption|].
  assert (Hp : Permutation merged ["a"; "b"; "c"]).
  { apply NoDup_Permutation; [assumption| |].
    - repeat constructor; simpl; intuition discriminate.
    - intros s. rewrite Hin. simpl. tauto. }
  split; [assumption|]. now rewrite (Permutation_length Hp).
Qed.

(** ** The context window (extract_page_context.py) *)

Import PageContextBuilder.

Section ContextWindow.
Context {codec : Codec}.

(** A page whose rendered image cannot be opened has no [PageData]: the
    first argument of the constructor call raises. *)
Lemma load_page_data_without_image (fs : filesystem) (base : path) (n : Z) :
  fs (image_path_of base n) = None ->
  load_page_data fs base n = Raise (FileNotFoundError (image_path_of base n)).
Proof.
  intros H. unfold load_page_data, Utils.encode_image_to_data_uri, open_read.
  now rewrite H.
Qed.

(** With the image in place, the structural metadata and the page text
    are optional: a missing file reads as ["{}"] and as the empty text. *)
Lemma load_page_data_degrades (fs : filesystem) (base : path) (n : Z)
    (content : string) :
  fs (image_path_of base n) = Some (File content) ->
  fs (metadata_path_of base n) = None ->
  fs (text_path_of base n) = None ->
  load_page_data fs base n =
  Ok {| page_number := n;
        image_path := image_path_of base n;
        image_data_uri := "data:image/png;base64," ++ b64encode content;
        metadata_path := metadata_path_of base n;
        metadata_content := "{}";
        text_path := text_path_of base n;
        text_content := "" |}.
Proof.
  intros Hi Hm Ht.
  unfold load_page_data, Utils.encode_image_to_data_uri, open_read, path_exists.
  now rewrite Hi, Hm, Ht.
Qed.

(** The current page's directory exists, its image does not:
    [FileNotFoundError], for the image. *)
Lemma get_page_context_current_image_missing (fs : filesystem) (n : Z)
    (base : path) :
  1 <= n ->
  path_exists fs (page_dir_of base n) = true ->
  fs (image_path_of base n) = None ->
  get_page_context fs n base = Raise (FileNotFoundError (image_path_of base n)).
Proof.
  intros Hn Hdir Himg. unfold get_page_context.
  destruct (n <? 1) eqn:E; [apply Z.ltb_lt in E; lia|].
  rewrite Hdir. simpl negb. cbv iota.
  now rewrite (load_page_data_without_image fs base n Himg).
Qed.

(** At a document boundary, or next to a page that has not been
    extracted yet, the neighbour is simply absent. *)
Lemma get_page_context_without_neighbours (fs : filesystem) (n : Z)
    (base : path) (current : PageData) :
  1 <= n ->
  path_exists fs (page_dir_of base n) = true ->
  load_page_data fs base n = Ok current ->
  path_exists fs (page_dir_of base (n - 1)) = false ->
  path_exists fs (page_dir_of base (n + 1)) = false ->
  get_page_context fs n base =
  Ok {| previous_page := None; current_page := current; next_page := None |}.
Proof.
  intros Hn Hdir Hcur Hprev Hnext. unfold get_page_context.
  destruct (n <? 1) eqn:E; [apply Z.ltb_lt in E; lia|].
  rewrite Hdir, Hcur, Hprev, Hnext. simpl.
  now destruct (1 <? n).
Qed.

(** C2 at a store the pipeline can leave behind.  Page 2 is requested;
    its directory and image exist.  The directory of page 1 exists, its
    image does not: the call raises [FileNotFoundError] for the image of
    the previous page, where the claim has the read degrade to an empty
    image reference. *)
Theorem get_page_context_raises_for_neighbour_image :
  path_exists Samples.window_files
    (page_dir_of Samples.window_base 2) = true /\
  get_page_context Samples.window_files 2 Samples.window_base
  = Raise (FileNotFoundError ["out"; "manual"; "page_1"; "page_1_full.png"]).
Proof. split; reflexivity. Qed.

End ContextWindow.

Lemma get_page_context_current_image_missing_witness :
  get_page_context (codec := Samples.sample_codec) Samples.sample_files 1
    ["out"; "manual"]
  = Raise (FileNotFoundError ["out"; "manual"; "page_1"; "page_1_full.png"]).
Proof.
  apply (@get_page_context_current_image_missing Samples.sample_codec
           Samples.sample_files 1 ["out"; "manual"]); [lia| |]; reflexivity.
Defined.

(** ** The cost ledger (litellm_client.py) *)

Import Llm.

Section CostLedger.
Context {service : Service}.

Lemma add_call_priced (self : CostTracker) (response : Response)
    (model call_type : string) (cost : float) :
  completion_cost response = Ok cost ->
  add_call self response model call_type =
  let u := match usage response with Some u => u | None => no_usage end in
  {| total_cost := float_add (total_cost self) cost;
     total_prompt_tokens :=
       total_prompt_tokens self + or_zero (usage_prompt_tokens u);
     total_completion_tokens :=
       total_completion_tokens self + or_zero (usage_completion_tokens u);
     total_tokens := total_tokens self + or_zero (usage_total_tokens u);
     call_count := call_count self + 1;
     cost_breakdown :=
       (cost_breakdown self ++
        [ {| entry_call_type := call_type;
             entry_model := model;
             entry_cost := cost;
             entry_prompt_tokens := or_zero (usage_prompt_tokens u);
             entry_completion_tokens := or_zero (usage_completion_tokens u);
             entry_total_tokens := or_zero (usage_total_tokens u) |} ])%list |}.
Proof. intros H. unfold add_call. now rewrite H. Qed.

Lemma add_call_unpriced (self : CostTracker) (response : Response)
    (model call_type : string) (e : exn) :
  completion_cost response = Raise e ->
  add_call self response model call_type = self.
Proof. intros H. unfold add_call. now rewrite H. Qed.

(** [add_call] never takes anything away from the ledger. *)
Lemma add_call_grows (self : CostTracker) (response : Response)
    (model call_type : string) :
  call_count self <= call_count (add_call self response model call_type) /\
  exists more,
    cost_breakdown (add_call self response model call_type)
    = (cost_breakdown self ++ more)%list.
Proof.
  unfold add_call. destruct (completion_cost response); simpl.
  - split; [lia|]. eexists. reflexivity.
  - split; [lia|]. exists []. now rewrite app_nil_r.
Qed.

Lemma chat_success (self : LitellmClient) (msgs : messages)
    (model_arg : option string) (opts : options) (call_type : string)
    (chosen : string) (response : Response) (b : provider) :
  chat_succeeds self msgs model_arg opts chosen response b ->
  chat self msgs model_arg opts call_type =
  (Ok response,
   with_tracker self (add_call (cost_tracker self) response chosen call_type) b).
Proof.
  intros (Hm & Hne & Hc). unfold chat. rewrite Hm.
  destruct chosen as [|c chosen]; [congruence|]. now rewrite Hc.
Qed.


End CostLedger.



(** ** The orchestrator (pipeline/processor.py) *)

Import Pipeline.

Unset Implicit Arguments.

Section Orchestrator.
Context {env : Environment}.

Lemma is_step_iff (name : string) :
  is_step name = true <-> In name ["ocr"; "context"; "enhance"; "table"].
Proof.
  unfold is_step, all_steps. simpl.
  destruct (String.eqb name "ocr") eqn:E1;
    [apply String.eqb_eq in E1; subst; simpl; tauto|].
  destruct (String.eqb name "context") eqn:E2;
    [apply String.eqb_eq in E2; subst; simpl; tauto|].
  destruct (String.eqb name "enhance") eqn:E3;
    [apply String.eqb_eq in E3; subst; simpl; tauto|].
  destruct (String.eqb name "table") eqn:E4;
    [apply String.eqb_eq in E4; subst; simpl; tauto|].
  apply String.eqb_neq in E1, E2, E3, E4.
  split; [discriminate|]. intros H. simpl in H.
  destruct H as [H|[H|[H|[H|[]]]]]; congruence.
Qed.

Lemma step_names_eq : step_names = ["ocr"; "context"; "enhance"; "table"].
Proof. reflexivity. Qed.

Lemma is_step_lookup (name : string) :
  is_step name = true ->
  exists title step, lookup_step name all_steps = Some (title, step).
Proof.
  unfold is_step. destruct (lookup_step name all_steps) as [[title step]|];
    [eauto|discriminate].
Qed.

(** One turn of the loop for a registered stage: the function is called,
    its result or its exception is recorded, the loop goes on. *)
Lemma run_step_registered (config : PipelineConfig) (name title : string)
    (step : step_func) (self : Processor) :
  lookup_step name all_steps = Some (title, step) ->
  run_step config name self =
  (Ok tt,
   {| machine := snd (step config (machine self));
      results := dict_set name (recorded (fst (step config (machine self))))
                          (results self);
      executed := (executed self ++ [name])%list |}).
Proof.
  intros H. unfold run_step. rewrite H.
  now destruct (step config (machine self)).
Qed.

Lemma run_steps_app (config : PipelineConfig) (a b : list string)
    (self : Processor) :
  run_steps config (a ++ b) self =
  match run_steps config a self with
  | (Ok _, self') => run_steps config b self'
  | (Raise e, self') => (Raise e, self')
  end.
Proof.
  revert self. induction a as [|x a IH]; intros self; simpl; [reflexivity|].
  destruct (run_step config x self) as [[[]|e] self']; [apply IH|reflexivity].
Qed.

(** Registered stages are all executed, in the order of the list; the
    loop never raises, and it writes the report only under the names in
    the list. *)
Lemma run_steps_registered (config : PipelineConfig) (steps : list string)
    (self : Processor) :
  Forall (fun s => is_step s = true) steps ->
  fst (run_steps config steps self) = Ok tt /\
  executed (snd (run_steps config steps self)) = (executed self ++ steps)%list /\
  forall k, ~ In k steps ->
    dict_get k (results (snd (run_steps config steps self)))
    = dict_get k (results self).
Proof.
  revert self. induction steps as [|x steps IH]; intros self Hall.
  - simpl. rewrite app_nil_r. auto.
  - inversion Hall as [|? ? Hx Hrest]; subst.
    destruct (is_step_lookup x Hx) as (title & step & Hl).
    simpl. rewrite (run_step_registered config x title step self Hl).
    destruct (IH
      {| machine := snd (step config (machine self));
         results := dict_set x (recorded (fst (step config (machine self))))
                             (results self);
         executed := (executed self ++ [x])%list |} Hrest) as (H1 & H2 & H3).
    split; [assumption|]. split.
    + rewrite H2. simpl. now rewrite <- app_assoc.
    + intros k Hk. rewrite H3 by (intros Hin; apply Hk; now right).
      simpl. apply dict_get_set_other. intros ->. apply Hk. now left.
Qed.

Lemma run_registered (config : PipelineConfig) (self : Processor)
    (steps : option (list string)) :
  Forall (fun s => is_step s = true) (selected steps) ->
  run config self steps =
  (Ok (results (snd (run_steps config (selected steps) self))),
   snd (run_steps config (selected steps) self)).
Proof.
  intros Hall.
  destruct (run_steps_registered config (selected steps) self Hall) as (Hok & _ & _).
  unfold run. destruct steps as [l|]; unfold selected in *.
  - assert (Hf : filter (fun s => negb (is_step s)) l = []).
    { clear Hok. induction l as [|x l IH]; [reflexivity|].
      inversion Hall as [|? ? Hx Hrest]; subst. cbn [filter]. rewrite Hx.
      cbn [negb]. now apply IH. }
    rewrite Hf.
    destruct (run_steps config l self) as [[u|e] self']; cbn [fst snd] in *;
      [reflexivity|discriminate].
  - destruct (run_steps config step_names self) as [[u|e] self'];
      cbn [fst snd] in *; [reflexivity|discriminate].
Qed.


(** C6, as the code has it.  Without a stage subset, [run] executes the
    four stages registered in [all_steps] (extraction, context
    generation, flag enhancement, table semantic metadata) once each, in
    this order, and returns the report.  Table-structure correction and
    image semantic metadata are not registered: their names are not even
    accepted as stage names. *)
Theorem default_stage_selection (config : PipelineConfig) (self : Processor) :
  let final := snd (run_steps config step_names self) in
  run config self None = (Ok (results final), final) /\
  executed final = (executed self ++ ["ocr"; "context"; "enhance"; "table"])%list /\
  map stage_of_step ["ocr"; "context"; "enhance"; "table"]
    = [ Some Extraction; Some ContextGeneration; Some FlagEnhancement;
        Some TableSemanticMetadata ] /\
  is_step "improve_table" = false /\ is_step "image" = false.
Proof.
  assert (Hall : Forall (fun s => is_step s = true) (selected None)).
  { simpl. rewrite step_names_eq. repeat constructor. }
  split; [|split; [|split; [|split]]]; try reflexivity.
  - exact (run_registered config self None Hall).
  - destruct (run_steps_registered config _ self Hall) as (_ & H & _). exact H.
Qed.

(** C7. Unknown stage names.  When the requested list holds a name that
    is not registered, [run] raises the error that carries the invalid
    names (those of the list that are not registered, in the order of the
    list) and the registered names; the processor is as it was: no stage
    function has been called and nothing has been recorded. *)
Theorem unknown_stage_fails_fast (config : PipelineConfig) (self : Processor)
    (steps : list string) :
  (exists s, In s steps /\ is_step s = false) ->
  let invalid := filter (fun s => negb (is_step s)) steps in
  run config self (Some steps)
    = (Raise (InvalidStepNames invalid ["ocr"; "context"; "enhance"; "table"]),
       self) /\
  invalid <> [] /\
  (forall s, In s invalid <->
             In s steps /\ ~ In s ["ocr"; "context"; "enhance"; "table"]).
Proof.
  intros (s & Hin & Hs) invalid.
  assert (Hs' : In s invalid).
  { apply filter_In. split; [assumption|]. now rewrite Hs. }
  split; [|split].
  - unfold run. fold invalid.
    destruct invalid as [|x l]; [contradiction|]. reflexivity.
  - intros Hnil. rewrite Hnil in Hs'. contradiction.
  - intros x. unfold invalid. rewrite filter_In, <- is_step_iff.
    destruct (is_step x); simpl; intuition congruence.
Qed.

End Orchestrator.



(** C6, as the claim has it, fails: the default run goes through four
    stages, not through the six of the pipeline. *)
Lemma default_run_skips_two_stages :
  executed (snd (run (env := Samples.sample_environment) Samples.sample_config
                     Samples.fresh_processor None))
    = ["ocr"; "context"; "enhance"; "table"] /\
  map stage_of_step
      (executed (snd (run (env := Samples.sample_environment)
                          Samples.sample_config Samples.fresh_processor None)))
    <> map Some pipeline_stages.
Proof. split; [reflexivity|discriminate]. Qed.

Lemma unknown_stage_fails_fast_witness :
  run (env := Samples.sample_environment) Samples.sample_config
      Samples.fresh_processor (Some ["ocr"; "tabel"])
  = (Raise (InvalidStepNames ["tabel"] ["ocr"; "context"; "enhance"; "table"]),
     Samples.fresh_processor).
Proof.
  apply (@unknown_stage_fails_fast Samples.sample_environment
           Samples.sample_config Samples.fresh_processor ["ocr"; "tabel"]).
  exists "tabel". split; [simpl; tauto|reflexivity].
Defined.

(** ** The context-generation stage (pipeline/steps/context_step.py) *)

Section ContextStep.
Context {env : Environment}.

Lemma py_range_bounds (a b x : Z) : In x (py_range a b) -> a <= x < b.
Proof.
  unfold py_range. rewrite in_map_iff. intros (i & <- & Hi).
  apply in_seq in Hi. lia.
Qed.

(** The three ways out of [run_context_step]: the output directory is
    missing (line 36), the document cannot be opened (line 43), or the
    lookup of [config.max_pages] raises (line 47).  The loops that follow
    line 47 are never reached. *)
Lemma run_context_step_outcome (config : PipelineConfig) (w : world) :
  run_context_step config w =
  {| outcome :=
       if path_exists (files w) (pdf_base_path config) then
         match page_count w (pdf_path config) with
         | Raise e => Raise e
         | Ok _ => Raise AttributeError
         end
       else
         Ok [ ("status", JStr "error");
              ("error", JStr ("OCR output not found at "
                              ++ str_of_path (pdf_base_path config)
                              ++ ". Run OCR step first.")) ];
     processed_pages := [];
     final_world := w |}.
Proof.
  unfold run_context_step.
  destruct (path_exists (files w) (pdf_base_path config)); cbn [negb];
    [|reflexivity].
  destruct (page_count w (pdf_path config)); reflexivity.
Qed.

(** Whatever the step does, the orchestrator records an error for it. *)
Lemma context_step_recorded (config : PipelineConfig) (w : world) :
  exists d,
    recorded (outcome (run_context_step config w)) = JObj d /\
    dict_get "status" d = Some (JStr "error").
Proof.
  rewrite run_context_step_outcome. cbn [outcome].
  destruct (path_exists (files w) (pdf_base_path config)).
  - destruct (page_count w (pdf_path config)); eexists; split; reflexivity.
  - eexists. split; reflexivity.
Qed.

End ContextStep.

(** C8 at a document whose two pages both carry a context record, with
    skipping enabled and a configuration built from the fields that
    [PipelineConfig] declares.  The step gets as far as line 47, where the
    lookup of [config.max_pages] raises [AttributeError]: it hands no page
    to the generation and changes nothing, as the claim says, but it does
    not return a result that reports the pages as skipped; under the
    orchestrator the stage is recorded with status [error]. *)
Theorem context_step_raises_on_max_pages :
  skip_metadata_if_exists Samples.sample_config = true /\
  @page_count Samples.writing_environment Samples.recorded_pages
    (pdf_path Samples.sample_config) = Ok 2 /\
  (forall n, 1 <= n <= 2 ->
     path_exists (Samples.written_files Samples.recorded_pages)
       (context_metadata_path_of ["out"; "manual"] n) = true) /\
  run_context_step (env := Samples.writing_environment) Samples.sample_config
    Samples.recorded_pages
  = @Build_StepRun Samples.writing_environment (Raise AttributeError) []
      Samples.recorded_pages /\
  fst (run (env := Samples.writing_environment) Samples.sample_config
           Samples.recorded_processor (Some ["context"]))
  = Ok [ ("context",
          JObj [ ("status", JStr "error");
                 ("error",
                  JStr "'PipelineConfig' object has no attribute 'max_pages'") ]) ].
Proof.
  split; [reflexivity|]. split; [reflexivity|]. split; [|split; reflexivity].
  intros n Hn. assert (Hcases : n = 1 \/ n = 2) by lia.
  destruct Hcases as [-> | ->]; reflexivity.
Qed.

(** ** Cleaning of model output (Text) *)

Import Text.

Lemma all_space_run (ws : string) :
  all_space ws = true -> token_run whitespace ws.
Proof. apply (all_tokens_run whitespace whitespace_code). Qed.

Lemma lstrip_space_app (ws s : string) :
  all_space ws = true -> lstrip (ws ++ s) = lstrip s.
Proof.
  intros H. unfold lstrip.
  exact (skip_run whitespace whitespace_code ws s (all_space_run ws H)).
Qed.

Lemma rstrip_app_space (s ws : string) :
  all_space ws = true -> rstrip (s ++ ws) = rstrip s.
Proof.
  intros H. unfold rstrip. rewrite reverse_app.
  now rewrite (skip_run (map reverse whitespace) whitespace_reversed_code
                 (reverse ws) (reverse s)
                 (token_run_reverse whitespace ws (all_space_run ws H))).
Qed.

(** Whitespace around a trimmed text is what [strip] removes. *)
Lemma strip_padded (ws1 body ws2 : string) :
  all_space ws1 = true -> all_space ws2 = true -> trimmed body = true ->
  strip (ws1 ++ body ++ ws2) = body.
Proof.
  intros H1 H2 Hb. unfold strip. rewrite (lstrip_space_app _ _ H1).
  unfold trimmed in Hb. apply orb_true_iff in Hb. destruct Hb as [Hb | Hb].
  - apply String.eqb_eq in Hb. subst body. cbn [append].
    rewrite <- (append_empty_r ws2). rewrite (lstrip_space_app _ _ H2).
    reflexivity.
  - apply andb_true_iff in Hb. destruct Hb as [Hl Hr].
    unfold lstrip. rewrite (skip_clear whitespace whitespace_code body ws2 Hl).
    rewrite (rstrip_app_space _ _ H2).
    unfold rstrip. rewrite <- (append_empty_r (reverse body)).
    rewrite (skip_clear (map reverse whitespace) whitespace_reversed_code
               (reverse body) "" Hr).
    rewrite append_empty_r. apply reverse_involutive.
Qed.

Lemma eqb_longer_false (c : ascii) (s suf : string) :
  String.eqb (String c (s ++ suf)) suf = false.
Proof.
  apply String.eqb_neq. intros H.
  apply (f_equal String.length) in H. simpl in H.
  rewrite length_append in H. lia.
Qed.

Lemma strip_suffix_app (suf s : string) : strip_suffix suf (s ++ suf) = Some s.
Proof.
  induction s as [|c s IH].
  - destruct suf as [|d suf]; [reflexivity|].
    cbn [append strip_suffix]. now rewrite String.eqb_refl.
  - change (String c s ++ suf)%string with (String c (s ++ suf)).
    cbn [strip_suffix]. rewrite eqb_longer_false. now rewrite IH.
Qed.

Lemma drop_last_app (s t : string) : drop_last (String.length t) (s ++ t) = s.
Proof.
  unfold drop_last. rewrite length_append.
  replace (String.length s + String.length t - String.length t)%nat
    with (String.length s) by lia.
  induction s as [|c s IH]; simpl.
  - now destruct t.
  - now rewrite IH.
Qed.

(** No whitespace character starts with the letter h: a bare fence
    followed by whitespace is not the [```html] fence. *)
Lemma whitespace_is_not_html (ws t : string) :
  all_space ws = true -> ws <> "" -> strip_prefix "html" (ws ++ t) = None.
Proof.
  intros H Hne. apply all_space_run in H. revert Hne.
  destruct H as [|w run Hw Hrun]; intros Hne; [congruence|].
  rewrite append_assoc. unfold whitespace in Hw. cbn [In] in Hw.
  repeat (destruct Hw as [<- | Hw]; [reflexivity|]). contradiction.
Qed.

(** A text between backquotes has no whitespace at its ends. *)
Lemma fenced_trimmed (rest inner : string) :
  trimmed (String "`" rest ++ inner ++ "```") = true.
Proof.
  unfold trimmed. apply orb_true_iff. right. apply andb_true_iff. split.
  - reflexivity.
  - rewrite <- append_assoc, reverse_app.
    change (reverse "```") with "```". reflexivity.
Qed.

(** The text between the fences, once the outer whitespace is gone. *)
Lemma strip_fenced (ws0 rest inner ws3 : string) :
  all_space ws0 = true -> all_space ws3 = true ->
  strip (ws0 ++ String "`" rest ++ inner ++ "```" ++ ws3)
  = (String "`" rest ++ inner ++ "```")%string.
Proof.
  intros H0 H3.
  pose proof (strip_padded ws0 (String "`" rest ++ inner ++ "```") ws3 H0 H3
                (fenced_trimmed rest inner)) as H.
  rewrite !append_assoc in H. exact H.
Qed.

Lemma strip_prefix_common (p q s : string) :
  strip_prefix (p ++ q) (p ++ s) = strip_prefix q s.
Proof.
  induction p as [|c p IH]; simpl; [reflexivity|].
  now rewrite Ascii.eqb_refl.
Qed.

Lemma regroup_inner (ws1 body ws2 tail : string) :
  (ws1 ++ body ++ ws2 ++ tail = (ws1 ++ body ++ ws2) ++ tail)%string.
Proof. now rewrite !append_assoc. Qed.

(** X1. A JSON answer wrapped in a [```json] fence, with any whitespace
    around the fences and around the answer, is unwrapped to the answer
    itself by the cleaning of [save_context_metadata].  Whitespace is what
    [str.strip] removes, non-ASCII whitespace included; the answer is any
    text without whitespace at its ends. *)
Theorem clean_json_str_unwraps (ws0 ws1 body ws2 ws3 : string) :
  all_space ws0 = true -> all_space ws1 = true ->
  all_space ws2 = true -> all_space ws3 = true ->
  trimmed body = true ->
  clean_json_str (ws0 ++ "```json" ++ ws1 ++ body ++ ws2 ++ "```" ++ ws3) = body.
Proof.
  intros H0 H1 H2 H3 Hb. unfold clean_json_str.
  rewrite (regroup_inner ws1 body ws2 ("```" ++ ws3)).
  change ("```json" ++ (ws1 ++ body ++ ws2) ++ "```" ++ ws3)%string
    with (String "`" "``json" ++ (ws1 ++ body ++ ws2) ++ "```" ++ ws3)%string.
  rewrite (strip_fenced ws0 "``json" (ws1 ++ body ++ ws2) ws3 H0 H3).
  change (String "`" "``json") with "```json".
  unfold removeprefix. rewrite strip_prefix_app.
  unfold removesuffix. rewrite strip_suffix_app.
  now apply strip_padded.
Qed.

(** The same with a no-break space, a line separator, a next-line control
    and an ideographic space around the fences. *)
Example fenced_answer_in_unicode_whitespace :
  clean_json_str (utf8 160 ++ "```json" ++ utf8 8232 ++ "{}" ++ utf8 133
                  ++ "```" ++ utf8 12288)
  = "{}".
Proof. vm_compute. reflexivity. Qed.

Lemma clean_json_str_unwraps_witness :
  clean_json_str MoreSamples.fenced_json = "{}".
Proof.
  apply (clean_json_str_unwraps "" MoreSamples.newline "{}" MoreSamples.newline
           MoreSamples.newline); reflexivity.
Defined.

(** X2. A corrected table wrapped in a [```html] fence, or in a bare
    [```] fence followed by whitespace, is unwrapped to the table itself by
    the cleaning of [improve_table_structure].  Whitespace is what
    [str.strip] removes, non-ASCII whitespace included. *)
Theorem clean_corrected_html_unwraps (fence ws0 ws1 body ws2 ws3 : string) :
  fence = "```html" \/ (fence = "```" /\ ws1 <> "") ->
  all_space ws0 = true -> all_space ws1 = true ->
  all_space ws2 = true -> all_space ws3 = true ->
  trimmed body = true ->
  clean_corrected_html (ws0 ++ fence ++ ws1 ++ body ++ ws2 ++ "```" ++ ws3) = body.
Proof.
  intros Hf H0 H1 H2 H3 Hb. unfold clean_corrected_html.
  rewrite (regroup_inner ws1 body ws2 ("```" ++ ws3)).
  assert (Hend : forall inner,
    (if endswith "```" (inner ++ "```") then drop_last 3 (inner ++ "```")
     else (inner ++ "```")%string) = inner).
  { intros inner. unfold endswith. rewrite strip_suffix_app.
    exact (drop_last_app inner "```"). }
  destruct Hf as [-> | [-> Hne]].
  - change ("```html" ++ (ws1 ++ body ++ ws2) ++ "```" ++ ws3)%string
      with (String "`" "``html" ++ (ws1 ++ body ++ ws2) ++ "```" ++ ws3)%string.
    rewrite (strip_fenced ws0 "``html" (ws1 ++ body ++ ws2) ws3 H0 H3).
    change (String "`" "``html") with "```html".
    unfold startswith at 1. rewrite strip_prefix_app.
    change (drop 7 ("```html" ++ (ws1 ++ body ++ ws2) ++ "```"))
      with ((ws1 ++ body ++ ws2) ++ "```")%string.
    rewrite Hend. now apply strip_padded.
  - change ("```" ++ (ws1 ++ body ++ ws2) ++ "```" ++ ws3)%string
      with (String "`" "``" ++ (ws1 ++ body ++ ws2) ++ "```" ++ ws3)%string.
    rewrite (strip_fenced ws0 "``" (ws1 ++ body ++ ws2) ws3 H0 H3).
    change (String "`" "``") with "```".
    assert (Hno : startswith "```html"
                    ("```" ++ (ws1 ++ body ++ ws2) ++ "```") = false).
    { unfold startswith.
      change "```html" with ("```" ++ "html")%string.
      rewrite strip_prefix_common, !append_assoc.
      now rewrite (whitespace_is_not_html ws1 _ H1 Hne). }
    rewrite Hno. unfold startswith. rewrite strip_prefix_app.
    change (drop 3 ("```" ++ (ws1 ++ body ++ ws2) ++ "```"))
      with ((ws1 ++ body ++ ws2) ++ "```")%string.
    rewrite Hend. now apply strip_padded.
Qed.

Lemma clean_corrected_html_unwraps_witness :
  clean_corrected_html MoreSamples.fenced_html = "<table></table>".
Proof.
  apply (clean_corrected_html_unwraps "```html" "" MoreSamples.newline
           "<table></table>" MoreSamples.newline "");
    try reflexivity.
  now left.
Defined.

Lemma strip_prefix_shorter (p q s r : string) :
  strip_prefix (p ++ q) s = Some r -> exists r', strip_prefix p s = Some r'.
Proof.
  revert s. induction p as [|c p IH]; intros s H; simpl in *; [eauto|].
  destruct s as [|d s]; [discriminate|].
  destruct (Ascii.eqb c d); [now apply IH|discriminate].
Qed.

(** X3. Text that carries no fence (it neither starts nor ends with three
    backquotes once trimmed) is only trimmed, by both cleanings: an
    unfenced answer is passed on as it is.  Whitespace is what [str.strip]
    removes, non-ASCII whitespace included. *)
Theorem cleaning_keeps_unfenced_text (ws1 body ws2 : string) :
  all_space ws1 = true -> all_space ws2 = true -> trimmed body = true ->
  startswith "```" body = false -> endswith "```" body = false ->
  clean_json_str (ws1 ++ body ++ ws2) = body /\
  clean_corrected_html (ws1 ++ body ++ ws2) = body.
Proof.
  intros H1 H2 Hb Hs He.
  pose proof (strip_padded ws1 body ws2 H1 H2 Hb) as Hstrip.
  assert (Hidem : strip body = body).
  { rewrite <- (append_empty_r body) at 1.
    exact (strip_padded "" body "" eq_refl eq_refl Hb). }
  assert (Hnone : forall q, strip_prefix ("```" ++ q) body = None).
  { intros q. destruct (strip_prefix ("```" ++ q) body) eqn:E; [|reflexivity].
    apply strip_prefix_shorter in E. destruct E as (r' & E).
    unfold startswith in Hs. now rewrite E in Hs. }
  pose proof (Hnone "json") as Hjson. pose proof (Hnone "html") as Hhtml.
  pose proof (Hnone "") as Hbare. cbn [append] in Hjson, Hhtml, Hbare.
  unfold endswith in He.
  split.
  - unfold clean_json_str. rewrite Hstrip. unfold removeprefix, removesuffix.
    rewrite Hjson.
    destruct (strip_suffix "```" body); [discriminate|]. exact Hidem.
  - unfold clean_corrected_html. rewrite Hstrip. unfold startswith.
    rewrite Hhtml, Hbare.
    unfold endswith. destruct (strip_suffix "```" body); [discriminate|].
    exact Hidem.
Qed.

Lemma cleaning_keeps_unfenced_text_witness :
  clean_json_str (utf8 160 ++ " {}" ++ MoreSamples.newline) = "{}" /\
  clean_corrected_html (utf8 160 ++ " {}" ++ MoreSamples.newline) = "{}".
Proof.
  apply (cleaning_keeps_unfenced_text (utf8 160 ++ " ") "{}" MoreSamples.newline);
    reflexivity.
Defined.

(** ** Saving a context record (extract_page_context.py) *)

Import Artifacts.

Lemma path_eqb_refl (p : path) : path_eqb p p = true.
Proof. unfold path_eqb. now destruct (list_eq_dec string_dec p p). Qed.

Lemma path_eqb_neq (p q : path) : p <> q -> path_eqb p q = false.
Proof. intros H. unfold path_eqb. now destruct (list_eq_dec string_dec p q). Qed.

Lemma removelast_path_div (p : path) (name : string) :
  removelast (path_div p name) = p.
Proof. unfold path_div. apply removelast_last. Qed.

(** A successful [open(p, "w")]: the file holds the content, every other
    path is as before. *)
Lemma open_write_ok (fs : filesystem) (dir : path) (name content : string) :
  fs dir = Some Dir ->
  fs (path_div dir name) <> Some Dir ->
  exists fs',
    open_write fs (path_div dir name) content = (Ok tt, fs') /\
    fs' (path_div dir name) = Some (File content) /\
    forall q, q <> path_div dir name -> fs' q = fs q.
Proof.
  intros Hdir Hnot. unfold open_write. rewrite removelast_path_div, Hdir.
  eexists. split; [|split].
  - destruct (fs (path_div dir name)) as [[|c]|]; [congruence| |]; reflexivity.
  - cbv beta. now rewrite path_eqb_refl.
  - intros q Hq. cbv beta. now rewrite (path_eqb_neq q _ Hq).
Qed.

(** Whatever [open(p, "w")] does, it touches no other path. *)
Lemma open_write_frame (fs : filesystem) (p : path) (content : string) (q : path) :
  q <> p -> snd (open_write fs p content) q = fs q.
Proof.
  intros Hq. unfold open_write.
  destruct (fs (removelast p)) as [[|c]|]; try reflexivity.
  destruct (fs p) as [[|c]|]; try reflexivity;
    simpl; now rewrite (path_eqb_neq q p Hq).
Qed.

Section SavingRecords.
Context {codec : Codec} {runtime : Runtime}.

(** X4. Called from a module that imported it, [save_context_metadata]
    never saves anything: it raises, [FileNotFoundError] when the page
    directory is missing and [NameError] for the unbound name [json]
    otherwise, and the store is as it was. *)
Theorem save_context_metadata_when_imported (fs : filesystem) (n : Z)
    (base : path) (content : string) :
  exists e,
    ContextRecord.save_context_metadata false fs n base content = (Raise e, fs) /\
    (path_exists fs (page_dir_of base n) = false ->
       e = FileNotFoundError (page_dir_of base n)) /\
    (path_exists fs (page_dir_of base n) = true ->
       e = OtherException "name 'json' is not defined").
Proof.
  unfold ContextRecord.save_context_metadata.
  destruct (path_exists fs (page_dir_of base n)); simpl;
    eexists; (split; [reflexivity|]); split; intros; congruence.
Qed.


End SavingRecords.


(** ** The enhance stage (utils.py, enhance_step.py) *)

Import EnhanceStep.

Section EnhanceStage.
Context {codec : Codec} {runtime : Runtime}.

Lemma enhance_page_counts (base : path) (n : Z) (t : Tally) :
  let t' := enhance_page base n t in
  enhanced t' + skipped t' + failed t' = enhanced t + skipped t + failed t + 1 /\
  enhanced t <= enhanced t' /\ skipped t <= skipped t' /\ failed t <= failed t'.
Proof.
  unfold enhance_page.
  repeat match goal with
         | |- context [if ?b then _ else _] => destruct b
         end; try (simpl; lia).
  destruct (enhance_context_metadata_file _ _ _ _) as [[p|e] fs']; simpl; lia.
Qed.

Lemma enhance_pages_counts (base : path) (pages : list Z) (t : Tally) :
  let t' := enhance_pages base pages t in
  enhanced t' + skipped t' + failed t'
    = enhanced t + skipped t + failed t + Z.of_nat (List.length pages) /\
  enhanced t <= enhanced t' /\ skipped t <= skipped t' /\ failed t <= failed t'.
Proof.
  revert t. induction pages as [|n pages IH]; intros t.
  - simpl. lia.
  - unfold enhance_pages in *. cbn [fold_left List.length].
    pose proof (enhance_page_counts base n t) as H1. cbv zeta in H1.
    pose proof (IH (enhance_page base n t)) as H2. cbv zeta in H2.
    cbv zeta. lia.
Qed.

Lemma py_range_length (a b : Z) :
  Z.of_nat (List.length (Pipeline.py_range a b)) = Z.max 0 (b - a).
Proof. unfold Pipeline.py_range. rewrite length_map, length_seq. lia. Qed.


Lemma enhance_page_frame (base : path) (n : Z) (t : Tally) (q : path) :
  q <> Pipeline.context_metadata_path_of base n ->
  store (enhance_page base n t) q = store t q.
Proof.
  intros Hq. unfold enhance_page, skip_page.
  repeat match goal with
         | |- context [if ?b then _ else _] => destruct b
         end; try reflexivity.
  unfold enhance_context_metadata_file.
  destruct (Utils.enhance_context_metadata _ _ _) as [enhanced_metadata|e];
    [|reflexivity].
  pose proof (open_write_frame (store t)
                (Pipeline.context_metadata_path_of base n)
                (dump_indent (JObj enhanced_metadata)) q Hq) as Hw.
  change (path_div (page_dir_of base n)
            ("context_metadata_page_" ++ str_of_int n ++ ".json"))
    with (Pipeline.context_metadata_path_of base n).
  destruct (open_write (store t) (Pipeline.context_metadata_path_of base n)
              (dump_indent (JObj enhanced_metadata))) as [[u|e] fs'];
    exact Hw.
Qed.

Lemma enhance_pages_frame (base : path) (pages : list Z) (t : Tally) (q : path) :
  (forall n, In n pages -> q <> Pipeline.context_metadata_path_of base n) ->
  store (enhance_pages base pages t) q = store t q.
Proof.
  revert t. induction pages as [|n pages IH]; intros t Hq; [reflexivity|].
  unfold enhance_pages in *. cbn [fold_left].
  rewrite IH by (intros; apply Hq; now right).
  apply enhance_page_frame. apply Hq. now left.
Qed.

Lemma metadata_is_not_context (base : path) (m n : Z) :
  metadata_path_of base m <> Pipeline.context_metadata_path_of base n.
Proof.
  unfold metadata_path_of, Pipeline.context_metadata_path_of, path_div.
  intros H. apply app_inj_tail in H. destruct H as [_ H]. discriminate.
Qed.

(** X7. The enhance stage writes context records only: whatever happens,
    a path that is not the context record of one of the document's pages
    holds after the stage what it held before; in particular no structural
    metadata record [metadata_page_<m>.json] is changed. *)
Theorem run_enhance_step_frame (fs : filesystem) (base : path)
    (page_count : res Z) :
  (forall q,
     (forall total n, page_count = Ok total -> 1 <= n <= total ->
        q <> Pipeline.context_metadata_path_of base n) ->
     snd (run_enhance_step fs base page_count) q = fs q) /\
  (forall m,
     snd (run_enhance_step fs base page_count) (metadata_path_of base m)
     = fs (metadata_path_of base m)).
Proof.
  assert (Hframe : forall q,
     (forall total n, page_count = Ok total -> 1 <= n <= total ->
        q <> Pipeline.context_metadata_path_of base n) ->
     snd (run_enhance_step fs base page_count) q = fs q).
  { intros q Hq. unfold run_enhance_step.
    destruct (path_exists fs base); [|reflexivity]. cbn [negb].
    destruct page_count as [total|e]; [|reflexivity]. cbn [snd].
    rewrite enhance_pages_frame; [reflexivity|].
    intros n Hn. apply py_range_bounds in Hn.
    apply (Hq total n eq_refl). lia. }
  split; [exact Hframe|].
  intros m. apply Hframe. intros total n _ _. apply metadata_is_not_context.
Qed.

End EnhanceStage.


(** ** Client configuration and the ledger's totals (litellm_client.py) *)

Import ClientConfig.

Section ClientAndLedger.
Context {service : Service}.


Lemma sum_of_app (f : BreakdownEntry -> Z) (l : list BreakdownEntry)
    (e : BreakdownEntry) :
  sum_of f (l ++ [e]) = sum_of f l + f e.
Proof. unfold sum_of. now rewrite fold_left_app. Qed.

Lemma add_call_balanced (t : CostTracker) (response : Response)
    (model call_type : string) :
  balanced t -> balanced (add_call t response model call_type).
Proof.
  intros (Hc & Hp & Hk & Ht & Hcost). unfold add_call.
  destruct (completion_cost response) as [cost|e].
  - unfold balanced. cbn [call_count total_prompt_tokens total_completion_tokens
                          total_tokens total_cost cost_breakdown].
    rewrite !sum_of_app, length_app, fold_left_app. cbn [List.length fold_left].
    cbn [entry_prompt_tokens entry_completion_tokens entry_total_tokens entry_cost].
    rewrite Hc, Hp, Hk, Ht, Hcost.
    repeat split; try reflexivity. lia.
  - repeat split; assumption.
Qed.

Lemma perform_balanced (op : Operation) (self : LitellmClient) :
  balanced (cost_tracker self) -> balanced (cost_tracker (perform op self)).
Proof.
  intros Hb. destruct op as [msgs m opts call_type| |]; cbn [perform].
  - unfold chat.
    destruct (choose_model m (Llm.model_name self)) as [[|c chosen]|];
      try exact Hb.
    destruct (completion (backend self) (String c chosen) msgs opts)
      as [[response|e] b]; cbn [snd with_tracker cost_tracker]; [|exact Hb].
    now apply add_call_balanced.
  - exact Hb.
  - repeat split.
Qed.

(** X9. The ledger stays balanced.  Starting from a new ledger, after any
    sequence of calls, summaries and resets, [call_count] is the number of
    breakdown entries, each token total is the sum of the entries' counts,
    and [total_cost] is the entries' costs added up in order. *)
Theorem ledger_balanced (ops : list Operation) (self : LitellmClient) :
  cost_tracker self = init ->
  balanced (cost_tracker (fold_left (fun c op => perform op c) ops self)).
Proof.
  intros Hinit.
  assert (Hb : balanced (cost_tracker self)).
  { rewrite Hinit. repeat split. }
  clear Hinit. revert self Hb.
  induction ops as [|op ops IH]; intros self Hb; [exact Hb|].
  cbn [fold_left]. apply IH. now apply perform_balanced.
Qed.

(** X10. A call that fails is not counted.  When [chat] raises, be it
    for want of a model name or because the service raised, the ledger is
    what it was, and the exception of the service is the one that comes
    out; without a model name the service is not even called. *)
Theorem failed_chat_not_recorded (self : LitellmClient) (msgs : messages)
    (model_arg : option string) (opts : options) (call_type : string) (e : exn) :
  fst (chat self msgs model_arg opts call_type) = Raise e ->
  cost_tracker (snd (chat self msgs model_arg opts call_type))
    = cost_tracker self /\
  ((exists chosen,
      choose_model model_arg (Llm.model_name self) = Some chosen /\
      chosen <> "" /\
      fst (completion (backend self) chosen msgs opts) = Raise e) \/
   (snd (chat self msgs model_arg opts call_type) = self /\
    e = LitellmConfigError
          "No model_name specified. Either pass it to __init__ or to chat().")).
Proof.
  unfold chat.
  destruct (choose_model model_arg (Llm.model_name self)) as [[|c chosen]|] eqn:Hm;
    cbn [fst snd].
  - intros H. injection H as <-. split; [reflexivity|]. right. now split.
  - destruct (completion (backend self) (String c chosen) msgs opts)
      as [[response|e'] b] eqn:Hc; cbn [fst snd]; [discriminate|].
    intros H. injection H as <-. split; [reflexivity|].
    left. exists (String c chosen). repeat split; [discriminate|].
    now rewrite Hc.
  - intros H. injection H as <-. split; [reflexivity|]. right. now split.
Qed.

End ClientAndLedger.

Lemma new_client_condition_example :
  (exists client,
     new_client (service := Samples.priced_service) MoreSamples.openai_environ
       (Some "openai/gpt-4o") tt = Ok client) /\
  new_client (service := Samples.priced_service) MoreSamples.azure_key_only
    (Some "openai/gpt-4o") tt
  = Raise (LitellmConfigError
             "Missing required environment variables. Please set appropriate API keys for your chosen provider (e.g., OPENAI_API_KEY, ANTHROPIC_API_KEY, etc.) before instantiating LitellmClient.").
Proof. split; [eexists|]; reflexivity. Qed.

Lemma ledger_balanced_witness :
  balanced (cost_tracker
    (fold_left (fun c op => perform op c) MoreSamples.sample_session
       Samples.priced_client)).
Proof.
  apply (@ledger_balanced Samples.priced_service MoreSamples.sample_session
           Samples.priced_client).
  reflexivity.
Defined.

Lemma failed_chat_not_recorded_witness :
  cost_tracker
    (snd (@chat Samples.priced_service MoreSamples.client_without_model
            tt None tt "chat"))
  = @init Samples.priced_service.
Proof.
  apply (@failed_chat_not_recorded Samples.priced_service
           MoreSamples.client_without_model tt None tt "chat"
           (LitellmConfigError
              "No model_name specified. Either pass it to __init__ or to chat().")).
  reflexivity.
Defined.

(** ** More on the context step and the orchestrator *)

Section ContextStage.
Context {env : Environment}.

(** X11. The context step never generates a record.  For every
    configuration and every state of the machine, [run_context_step] hands
    no page to the generation of context metadata and leaves the world as
    it is.  With the output directory and a readable document in place it
    raises [AttributeError] (the lookup of [config.max_pages]); the only
    value it ever returns is the error result for a missing output
    directory; and what the orchestrator records for it has status
    [error]. *)
Theorem context_step_never_generates (config : PipelineConfig) (w : world) :
  processed_pages (run_context_step config w) = [] /\
  final_world (run_context_step config w) = w /\
  (forall total,
     path_exists (files w) (pdf_base_path config) = true ->
     page_count w (pdf_path config) = Ok total ->
     outcome (run_context_step config w) = Raise AttributeError) /\
  (forall result,
     outcome (run_context_step config w) = Ok result ->
     path_exists (files w) (pdf_base_path config) = false /\
     dict_get "status" result = Some (JStr "error")) /\
  exists d,
    recorded (outcome (run_context_step config w)) = JObj d /\
    dict_get "status" d = Some (JStr "error").
Proof.
  split; [|split; [|split; [|split]]].
  - now rewrite run_context_step_outcome.
  - now rewrite run_context_step_outcome.
  - intros total Hbase Hcount. rewrite run_context_step_outcome. cbn [outcome].
    now rewrite Hbase, Hcount.
  - intros result. rewrite run_context_step_outcome. cbn [outcome].
    destruct (path_exists (files w) (pdf_base_path config)).
    + destruct (page_count w (pdf_path config)); discriminate.
    + intros H. injection H as <-. split; reflexivity.
  - apply context_step_recorded.
Qed.

(** Once the context stage has had a turn, the report holds an error
    under its name for the rest of the run. *)
Lemma run_steps_context (config : PipelineConfig) (steps : list string)
    (self : Processor) :
  Forall (fun s => is_step s = true) steps ->
  In "context" steps \/
  (exists d, dict_get "context" (results self) = Some (JObj d) /\
             dict_get "status" d = Some (JStr "error")) ->
  exists d,
    dict_get "context" (results (snd (run_steps config steps self)))
      = Some (JObj d) /\
    dict_get "status" d = Some (JStr "error").
Proof.
  revert self. induction steps as [|x steps IH]; intros self Hall H.
  - destruct H as [[] | H]. exact H.
  - inversion Hall as [|? ? Hx Hrest]; subst.
    destruct (is_step_lookup x Hx) as (title & step & Hl).
    cbn [run_steps]. rewrite (run_step_registered config x title step self Hl).
    apply IH; [assumption|].
    destruct (String.eqb x "context") eqn:E.
    + apply String.eqb_eq in E. subst x. right. cbn [results].
      rewrite dict_get_set_same.
      change (lookup_step "context" all_steps)
        with (Some ("Context Metadata", context_step)) in Hl.
      injection Hl as _ <-.
      destruct (context_step_recorded config (machine self)) as (d & Hd & Hs).
      exists d. split; [|assumption]. f_equal. exact Hd.
    + apply String.eqb_neq in E. destruct H as [[Hc | Hin] | (d & Hd & Hs)].
      * congruence.
      * now left.
      * right. exists d. split; [|assumption]. cbn [results].
        now rewrite dict_get_set_other.
Qed.

(** X12. The context stage always fails.  For any selection of
    registered stages (or the default one) that includes [context], the
    report that [run] returns holds a dict with status [error] under
    [context], whatever the configuration, the machine and the other
    stages do. *)
Theorem context_stage_always_fails (config : PipelineConfig) (self : Processor)
    (steps : option (list string)) :
  Forall (fun s => is_step s = true) (selected steps) ->
  In "context" (selected steps) ->
  exists report final d,
    run config self steps = (Ok report, final) /\
    dict_get "context" report = Some (JObj d) /\
    dict_get "status" d = Some (JStr "error").
Proof.
  intros Hall Hin.
  destruct (run_steps_context config (selected steps) self Hall (or_introl Hin))
    as (d & Hd & Hs).
  exists (results (snd (run_steps config (selected steps) self))),
         (snd (run_steps config (selected steps) self)), d.
  split; [exact (run_registered config self steps Hall)|]. now split.
Qed.

End ContextStage.

Lemma context_stage_always_fails_witness :
  exists report final d,
    run (env := Samples.sample_environment) Samples.sample_config
        Samples.fresh_processor None = (Ok report, final) /\
    dict_get "context" report = Some (JObj d) /\
    dict_get "status" d = Some (JStr "error").
Proof.
  apply (@context_stage_always_fails Samples.sample_environment
           Samples.sample_config Samples.fresh_processor None).
  - repeat constructor.
  - simpl. tauto.
Defined.

Section ReportCoverage.
Context {env : Environment}.

Lemma recorded_is_object (r : res StepResult) : exists d, recorded r = JObj d.
Proof. destruct r; simpl; eauto. Qed.

Lemma run_steps_entries (config : PipelineConfig) (steps : list string)
    (self : Processor) :
  Forall (fun s => is_step s = true) steps ->
  forall name, In name steps ->
    exists d, dict_get name (results (snd (run_steps config steps self)))
              = Some (JObj d).
Proof.
  revert self. induction steps as [|x steps IH]; intros self Hall name Hin;
    [contradiction|].
  inversion Hall as [|? ? Hx Hrest]; subst.
  destruct (is_step_lookup x Hx) as (title & step & Hl).
  cbn [run_steps]. rewrite (run_step_registered config x title step self Hl).
  destruct (in_dec string_dec name steps) as [Hlater | Hnot].
  - now apply IH.
  - destruct Hin as [-> | Hin]; [|contradiction].
    destruct (run_steps_registered config steps
      {| machine := snd (step config (machine self));
         results := dict_set name (recorded (fst (step config (machine self))))
                             (results self);
         executed := (executed self ++ [name])%list |} Hrest) as (_ & _ & Hkeep).
    rewrite (Hkeep name Hnot). cbn [results]. rewrite dict_get_set_same.
    destruct (recorded_is_object (fst (step config (machine self)))) as (d & ->).
    now exists d.
Qed.

(** X13. The report covers the selection and nothing else changes.  For
    any selection of registered stages (or the default one), [run]
    returns a report that has a dict under the name of every selected
    stage, and that holds under every other name what [self.results] held
    before the call: entries of earlier runs of the same processor stay. *)
Theorem report_covers_selection (config : PipelineConfig) (self : Processor)
    (steps : option (list string)) :
  Forall (fun s => is_step s = true) (selected steps) ->
  exists report final,
    run config self steps = (Ok report, final) /\
    report = results final /\
    (forall name, In name (selected steps) ->
       exists d, dict_get name report = Some (JObj d)) /\
    (forall name, ~ In name (selected steps) ->
       dict_get name report = dict_get name (results self)).
Proof.
  intros Hall.
  exists (results (snd (run_steps config (selected steps) self))),
         (snd (run_steps config (selected steps) self)).
  split; [exact (run_registered config self steps Hall)|].
  split; [reflexivity|]. split.
  - exact (run_steps_entries config (selected steps) self Hall).
  - destruct (run_steps_registered config (selected steps) self Hall)
      as (_ & _ & Hkeep). exact Hkeep.
Qed.

End ReportCoverage.

Lemma report_covers_selection_witness :
  exists report final,
    run (env := Samples.sample_environment) Samples.sample_config
        Samples.fresh_processor (Some ["enhance"; "table"])
      = (Ok report, final) /\
    dict_get "ocr" report = None /\
    exists d, dict_get "table" report = Some (JObj d).
Proof.
  destruct (@report_covers_selection Samples.sample_environment
              Samples.sample_config Samples.fresh_processor
              (Some ["enhance"; "table"]))
    as (report & final & Hrun & _ & Hin & Hout).
  - repeat constructor.
  - exists report, final. split; [exact Hrun|]. split.
    + rewrite Hout; [reflexivity|]. simpl. intuition discriminate.
    + apply Hin. simpl. tauto.
Defined.

(** ** More on the context window *)

Section WindowShape.
Context {codec : Codec}.

Lemma load_page_data_fields (fs : filesystem) (base : path) (k : Z) (p : PageData) :
  load_page_data fs base k = Ok p ->
  page_number p = k /\
  image_path p = image_path_of base k /\
  metadata_path p = metadata_path_of base k /\
  text_path p = text_path_of base k.
Proof.
  unfold load_page_data. intros H.
  destruct (Utils.encode_image_to_data_uri fs (image_path_of base k));
    [|discriminate]. cbn [bind] in H.
  destruct (if path_exists fs (metadata_path_of base k)
            then Utils.read_json_file fs (metadata_path_of base k)
            else Ok "{}"); [|discriminate]. cbn [bind] in H.
  destruct (if path_exists fs (text_path_of base k)
            then Utils.read_text_file fs (text_path_of base k)
            else Ok ""); [|discriminate]. cbn [bind] in H.
  injection H as <-. repeat split.
Qed.

(** X14. The window is made of consecutive pages.  When
    [get_page_context] returns, the page number is at least 1, the
    current page of the window is the requested one, a previous page is
    page n-1 and a next page is page n+1 (each with its own paths), page 1
    never has a previous page - whatever the store holds - and a
    neighbour is absent exactly when its directory is. *)
Theorem window_pages_consecutive (fs : filesystem) (n : Z) (base : path)
    (window : PageContext) :
  get_page_context fs n base = Ok window ->
  1 <= n /\
  page_number (current_page window) = n /\
  image_path (current_page window) = image_path_of base n /\
  (forall p, previous_page window = Some p ->
     1 < n /\ page_number p = n - 1 /\ image_path p = image_path_of base (n - 1)) /\
  (forall p, next_page window = Some p ->
     page_number p = n + 1 /\ image_path p = image_path_of base (n + 1)) /\
  (previous_page window = None <->
     n = 1 \/ path_exists fs (page_dir_of base (n - 1)) = false) /\
  (next_page window = None <->
     path_exists fs (page_dir_of base (n + 1)) = false).
Proof.
  unfold get_page_context. intros H.
  destruct (n <? 1) eqn:Hn; [discriminate|]. apply Z.ltb_ge in Hn.
  destruct (path_exists fs (page_dir_of base n)); [|discriminate].
  cbn [negb] in H.
  destruct (load_page_data fs base n) as [cur|] eqn:Hcur; [|discriminate].
  cbn [bind] in H.
  destruct (load_page_data_fields fs base n cur Hcur) as (Hc1 & Hc2 & _).
  assert (Hprev : exists prev,
    (if 1 <? n
     then if path_exists fs (page_dir_of base (n - 1))
          then bind (load_page_data fs base (n - 1)) (fun p => Ok (Some p))
          else Ok None
     else Ok None) = Ok prev).
  { destruct (if 1 <? n then _ else _) as [prev|]; [eauto|discriminate]. }
  destruct Hprev as (prev & Hprev). rewrite Hprev in H. cbn [bind] in H.
  assert (Hnext : exists next,
    (if path_exists fs (page_dir_of base (n + 1))
     then bind (load_page_data fs base (n + 1)) (fun p => Ok (Some p))
     else Ok None) = Ok next).
  { destruct (if path_exists fs (page_dir_of base (n + 1)) then _ else _)
      as [next|]; [eauto|discriminate]. }
  destruct Hnext as (next & Hnext). rewrite Hnext in H. cbn [bind] in H.
  injection H as <-. cbn [current_page previous_page next_page].
  split; [lia|]. split; [exact Hc1|]. split; [exact Hc2|].
  destruct (1 <? n) eqn:H1n;
    [apply Z.ltb_lt in H1n | apply Z.ltb_ge in H1n].
  - destruct (path_exists fs (page_dir_of base (n - 1))) eqn:Hd.
    + destruct (load_page_data fs base (n - 1)) as [pp|] eqn:Hpp;
        [|discriminate]. cbn [bind] in Hprev. injection Hprev as <-.
      destruct (load_page_data_fields fs base (n - 1) pp Hpp) as (Hp1 & Hp2 & _).
      split; [intros p Hp; injection Hp as <-; auto|].
      destruct (path_exists fs (page_dir_of base (n + 1))) eqn:Hd'.
      * destruct (load_page_data fs base (n + 1)) as [np|] eqn:Hnp;
          [|discriminate]. cbn [bind] in Hnext. injection Hnext as <-.
        destruct (load_page_data_fields fs base (n + 1) np Hnp) as (Hn1 & Hn2 & _).
        split; [intros p Hp; injection Hp as <-; auto|].
        split; split; try discriminate; intros [?|?]; try lia; discriminate.
      * injection Hnext as <-.
        split; [discriminate|].
        split; split; try discriminate; try reflexivity;
          intros [?|?]; try lia; discriminate.
    + injection Hprev as <-. split; [discriminate|].
      destruct (path_exists fs (page_dir_of base (n + 1))) eqn:Hd'.
      * destruct (load_page_data fs base (n + 1)) as [np|] eqn:Hnp;
          [|discriminate]. cbn [bind] in Hnext. injection Hnext as <-.
        destruct (load_page_data_fields fs base (n + 1) np Hnp) as (Hn1 & Hn2 & _).
        split; [intros p Hp; injection Hp as <-; auto|].
        split; split; auto; discriminate.
      * injection Hnext as <-. split; [discriminate|].
        split; split; auto.
  - injection Hprev as <-. split; [discriminate|].
    assert (n = 1) by lia.
    destruct (path_exists fs (page_dir_of base (n + 1))) eqn:Hd'.
    + destruct (load_page_data fs base (n + 1)) as [np|] eqn:Hnp;
        [|discriminate]. cbn [bind] in Hnext. injection Hnext as <-.
      destruct (load_page_data_fields fs base (n + 1) np Hnp) as (Hn1 & Hn2 & _).
      split; [intros p Hp; injection Hp as <-; auto|].
      split; split; auto; discriminate.
    + injection Hnext as <-. split; [discriminate|].
      split; split; auto.
Qed.

(** X15. At a boundary with nothing but the page image.  For a page with
    its directory and rendered image, without structural metadata, page
    text or neighbouring page directories, the window has no previous and
    no next page, and its current page carries the image as a data URI,
    ["{}"] for the metadata and the empty text. *)
Theorem window_at_boundary (fs : filesystem) (n : Z) (base : path)
    (image : string) :
  1 <= n ->
  path_exists fs (page_dir_of base n) = true ->
  fs (image_path_of base n) = Some (File image) ->
  fs (metadata_path_of base n) = None ->
  fs (text_path_of base n) = None ->
  path_exists fs (page_dir_of base (n - 1)) = false ->
  path_exists fs (page_dir_of base (n + 1)) = false ->
  get_page_context fs n base =
  Ok {| previous_page := None;
        current_page :=
          {| page_number := n;
             image_path := image_path_of base n;
             image_data_uri := "data:image/png;base64," ++ b64encode image;
             metadata_path := metadata_path_of base n;
             metadata_content := "{}";
             text_path := text_path_of base n;
             text_content := "" |};
        next_page := None |}.
Proof.
  intros Hn Hdir Himg Hmeta Htext Hprev Hnext.
  unfold get_page_context.
  destruct (n <? 1) eqn:E; [apply Z.ltb_lt in E; lia|].
  rewrite Hdir, (@load_page_data_degrades codec fs base n image Himg Hmeta Htext),
    Hprev, Hnext.
  cbn [negb bind]. now destruct (1 <? n).
Qed.

End WindowShape.

Lemma window_at_boundary_witness :
  exists window,
    get_page_context (codec := Samples.sample_codec)
      MoreSamples.single_page_files 1 ["doc"] = Ok window /\
    previous_page window = None /\ next_page window = None /\
    metadata_content (current_page window) = "{}".
Proof.
  eexists. split.
  - apply (@window_at_boundary Samples.sample_codec
             MoreSamples.single_page_files 1 ["doc"] "PNG");
      try reflexivity; lia.
  - repeat split.
Defined.

Lemma window_pages_consecutive_witness :
  exists window,
    get_page_context (codec := Samples.sample_codec)
      MoreSamples.single_page_files 1 ["doc"] = Ok window /\
    page_number (current_page window) = 1.
Proof.
  eexists. split; [reflexivity|].
  apply (@window_pages_consecutive Samples.sample_codec
           MoreSamples.single_page_files 1 ["doc"] _ eq_refl).
Defined.

(** ** More on the merge engine *)

Import MoreSpec.

(** X16. The identifier pattern.  [re.match] with
    [(?:figure|image)-(\d+)-(\d+)] succeeds exactly on the identifiers
    made of [figure] or [image], a dash, a non-empty run of decimal digits,
    a dash and a non-empty run of decimal digits followed by no further
    digit, and its groups are those two runs: text after the index is
    ignored, a missing index or a different kind is no match.  A decimal
    digit is any character of Unicode category Nd, as [\d] has it in a
    [str] pattern. *)
Theorem element_id_pattern_exact (element_id page index : string) :
  re_match_element_id element_id = Some (page, index) <->
  id_pattern element_id page index.
Proof.
  split.
  - apply re_match_element_id_sound.
  - apply re_match_element_id_complete.
Qed.

(** Identifiers written with other decimal digits match as well, here
    with Arabic-Indic ones; superscript and circled digits are not decimal
    digits. *)
Example element_id_with_arabic_indic_digits :
  re_match_element_id
    ("figure-" ++ utf8 1633 ++ utf8 1634 ++ "-" ++ utf8 1635 ++ utf8 178)
  = Some (utf8 1633 ++ utf8 1634, utf8 1635) /\
  re_match_element_id ("figure-" ++ utf8 178 ++ "-" ++ utf8 9312) = None.
Proof. split; reflexivity. Qed.

(** X17. The last record wins.  For records that are objects with a
    string (or no) [image_id], whatever their other fields hold, the lookup
    built by the merge maps an identifier to the last record of the list
    that carries it, and to nothing when no record does. *)
Theorem image_lookup_last_record_wins (records : list json) :
  forallb has_string_id records = true ->
  exists m,
    build_image_metadata_map records [] = Ok m /\
    forall id, map_get (KStr id) m = record_for id records.
Proof.
  intros Hwt.
  destruct (build_image_metadata_map_lookup records [] Hwt) as (m & Hm & Hlook).
  exists m. split; [exact Hm|].
  intros id. rewrite Hlook. now destruct (record_for id records).
Qed.

Lemma image_lookup_last_record_wins_witness :
  exists m,
    build_image_metadata_map
      [ JObj Samples.null_entities_record; JObj Samples.figure_record;
        JObj Samples.image_record ] []
      = Ok m /\
    map_get (KStr "image-12-2") m = Some Samples.image_record.
Proof.
  destruct (image_lookup_last_record_wins
              [ JObj Samples.null_entities_record; JObj Samples.figure_record;
                JObj Samples.image_record ]
              eq_refl) as (m & Hm & Hlook).
  exists m. split; [exact Hm|]. now rewrite Hlook.
Defined.

Lemma strings_of_map_JStr (ss : list string) : strings_of (map JStr ss) = Some ss.
Proof. induction ss as [|s ss IH]; simpl; [reflexivity|]. now rewrite IH. Qed.

Lemma dict_set_twice (k : string) (v v' : json) (d : pydict) :
  dict_set k v' (dict_set k v d) = dict_set k v' d.
Proof.
  induction d as [|[k0 v0] d IH]; simpl.
  - now rewrite String.eqb_refl.
  - destruct (String.eqb k k0) eqn:E; simpl; rewrite E; [reflexivity|].
    now rewrite IH.
Qed.

(** X18. Merging again adds nothing.  When a list-valued field of an
    element has been merged with a record, merging the result with the
    same record again succeeds and yields the same strings, possibly in
    another order: repeated runs neither lose nor duplicate keywords. *)
Theorem merge_unique_again (ord : union_order) (f : string)
    (matched element : pydict) (old new : list string) :
  string_list_field f element = Some old ->
  string_list_field f matched = Some new ->
  exists merged merged',
    merge_unique ord f matched element
      = Ok (dict_set f (JArr (map JStr merged)) element) /\
    merge_unique ord f matched (dict_set f (JArr (map JStr merged)) element)
      = Ok (dict_set f (JArr (map JStr merged')) element) /\
    Permutation merged merged' /\ NoDup merged /\
    (forall s, In s old -> In s merged) /\
    (forall s, In s new -> In s merged).
Proof.
  intros Hold Hnew.
  destruct (@merge_unique_union ord f matched element old new Hold Hnew)
    as (merged & Hm & Hnd & Hin).
  assert (Hfield : string_list_field f (dict_set f (JArr (map JStr merged)) element)
                   = Some merged).
  { unfold string_list_field. rewrite dict_get_set_same.
    apply strings_of_map_JStr. }
  destruct (@merge_unique_union ord f matched
              (dict_set f (JArr (map JStr merged)) element) merged new Hfield Hnew)
    as (merged' & Hm' & Hnd' & Hin').
  exists merged, merged'. split; [exact Hm|]. split.
  - rewrite Hm'. now rewrite dict_set_twice.
  - split; [|split; [exact Hnd|split]].
    + apply NoDup_Permutation; [assumption|assumption|].
      intros s. rewrite Hin', Hin. tauto.
    + intros s Hs. apply Hin. now left.
    + intros s Hs. apply Hin. now right.
Qed.

Lemma merge_unique_again_witness :
  exists merged merged',
    merge_unique Samples.sample_order "keywords" Samples.image_record
      Samples.figure_element
      = Ok (dict_set "keywords" (JArr (map JStr merged)) Samples.figure_element) /\
    Permutation merged merged' /\ In "c" merged.
Proof.
  destruct (@merge_unique_again Samples.sample_order "keywords"
              Samples.image_record Samples.figure_element
              ["a"; "b"] ["b"; "c"] eq_refl eq_refl)
    as (merged & merged' & H1 & _ & Hp & _ & _ & Hnew).
  exists merged, merged'. split; [exact H1|]. split; [exact Hp|].
  apply Hnew. simpl. tauto.
Defined.

Lemma mapM_Forall2_ok {A B : Type} (f : A -> res B) (R : A -> B -> Prop)
    (l : list A) (l' : list B) :
  (forall x y, f x = Ok y -> R x y) ->
  mapM f l = Ok l' -> Forall2 R l l'.
Proof.
  intros HR. revert l'. induction l as [|x l IH]; intros l' H; simpl in H.
  - injection H as <-. constructor.
  - destruct (f x) as [y|] eqn:Hy; [|discriminate]. cbn [bind] in H.
    destruct (mapM f l) as [ys|]; [|discriminate]. cbn [bind] in H.
    injection H as <-. constructor; [now apply HR|now apply IH].
Qed.

Lemma enhance_element_same_identity (ord : union_order) (m : image_map)
    (element element' : json) :
  enhance_element ord m element = Ok element' ->
  same_identity element element'.
Proof.
  unfold enhance_element. intros H.
  destruct element as [| | | |?|fields]; try discriminate.
  destruct (is_figure (dict_get "type" fields));
    [|injection H as <-; now left].
  destruct (dict_get_default "element_id" (JStr "") fields); try discriminate.
  destruct (re_match_element_id s) as [[page index]|];
    [|injection H as <-; now left].
  destruct (first_match _ m) as [[|kv matched]|];
    try (injection H as <-; now left).
  destruct (apply_image_metadata ord (kv :: matched) fields) as [fields'|] eqn:Ha;
    [|discriminate].
  cbn [bind] in H. injection H as <-.
  apply apply_image_metadata_ok in Ha. destruct Ha as (e1 & e2 & H1 & H2 & ->).
  right. exists fields. eexists. split; [reflexivity|]. split; [reflexivity|].
  split; through_assignments H1 H2; reflexivity.
Qed.

(** X19. Correlation touches nothing but the figure entries.  Whenever
    the merge returns, every field of the context metadata other than
    [content_elements] is as it was (the generated [image_metadata] list
    included), and when [content_elements] is a list it is replaced by a
    list of the same length whose elements are, position by position, the
    untouched element or an object with the same [element_id] and
    [type]. *)
Theorem correlation_preserves_identity (ord : union_order)
    (context context' : pydict) :
  enhance_content_elements_with_image_metadata ord context = Ok context' ->
  (forall k, k <> "content_elements" ->
     dict_get k context' = dict_get k context) /\
  (forall elements,
     dict_get "content_elements" context = Some (JArr elements) ->
     exists elements',
       dict_get "content_elements" context' = Some (JArr elements') /\
       Forall2 same_identity elements elements').
Proof.
  unfold enhance_content_elements_with_image_metadata. intros H.
  assert (Hsame : context' = context ->
    (forall k, k <> "content_elements" ->
       dict_get k context' = dict_get k context) /\
    (forall elements,
       dict_get "content_elements" context = Some (JArr elements) ->
       exists elements',
         dict_get "content_elements" context' = Some (JArr elements') /\
         Forall2 same_identity elements elements')).
  { intros ->. split; [reflexivity|]. intros elements He.
    exists elements. split; [exact He|].
    clear. induction elements; constructor; [now left|assumption]. }
  destruct (dict_get "image_metadata" context) as [image_metadata|];
    [|injection H as <-; now apply Hsame].
  destruct (truthy image_metadata); cbn [negb] in H;
    [|injection H as <-; now apply Hsame].
  destruct (dict_get "content_elements" context) as [content_elements|] eqn:Hce;
    [|injection H as <-; now apply Hsame].
  destruct (py_iter image_metadata) as [records|]; [|discriminate].
  cbn [bind] in H.
  destruct (build_image_metadata_map records []) as [m|]; [|discriminate].
  cbn [bind] in H.
  destruct (py_iter content_elements) as [elements|] eqn:Hiter; [|discriminate].
  cbn [bind] in H.
  destruct (mapM (enhance_element ord m) elements) as [elements'|] eqn:Hmap;
    [|discriminate].
  cbn [bind] in H.
  destruct content_elements as [| | | |l|d];
    try (injection H as <-; now apply Hsame).
  injection H as <-. cbn [py_iter] in Hiter. injection Hiter as <-.
  split.
  - intros k Hk. apply dict_get_set_other. congruence.
  - intros elements He. injection He as <-.
    exists elements'. split; [apply dict_get_set_same|].
    exact (mapM_Forall2_ok (enhance_element ord m) same_identity l elements'
             (enhance_element_same_identity ord m) Hmap).
Qed.

Lemma correlation_preserves_identity_witness :
  exists context',
    enhance_content_elements_with_image_metadata Samples.sample_order
      Samples.page_context = Ok context' /\
    dict_get "page_title" context' = Some (JStr "Maintenance").
Proof.
  eexists. split; [reflexivity|].
  rewrite (proj1 (correlation_preserves_identity Samples.sample_order
                    Samples.page_context _ eq_refl));
    [reflexivity|discriminate].
Defined.

(** ** More on flag enhancement *)

Lemma dict_set_present (k : string) (v : json) (d : pydict) :
  dict_get k d = Some v -> dict_set k v d = d.
Proof.
  induction d as [|[k0 v0] d IH]; simpl; [discriminate|].
  destruct (String.eqb k k0) eqn:E.
  - intros H. injection H as ->. reflexivity.
  - intros H. now rewrite IH.
Qed.

(** X20. Flag enhancement is idempotent.  Enhancing the result of an
    enhancement again with the same structural metadata returns that
    result unchanged, values and order of keys alike. *)
Theorem enhance_flags_idempotent (context : json) (basic : json)
    (enhanced : pydict) :
  Utils.enhance_flags context basic = Ok enhanced ->
  Utils.enhance_flags (JObj enhanced) basic = Ok enhanced.
Proof.
  unfold Utils.enhance_flags. intros H.
  destruct (Utils.as_dict basic) as [b|]; [|discriminate]. cbn [bind] in *.
  destruct (Utils.as_dict context) as [c|]; [|discriminate]. cbn [bind] in *.
  destruct (py_len (dict_get_default "tables" (JArr []) b)) as [nt|];
    [|discriminate]. cbn [bind] in *.
  destruct (py_len (dict_get_default "figures" (JArr []) b)) as [nf|];
    [|discriminate]. cbn [bind] in *.
  destruct (py_len (dict_get_default "text_blocks" (JArr []) b)) as [nx|];
    [|discriminate]. cbn [bind] in *.
  injection H as <-. cbn [Utils.as_dict bind]. f_equal.
  pose proof (@dict_update_flags_get c
    (JBool (0 <? nt)) (JBool (0 <? nf)) (JBool (0 <? nx))
    (JNum nt) (JNum nf) (JNum nx)
    (JObj [ ("tables", dict_get_default "tables" (JArr []) b);
            ("figures", dict_get_default "figures" (JArr []) b);
            ("text_blocks", dict_get_default "text_blocks" (JArr []) b) ])) as Hg.
  cbv zeta in Hg. unfold dict_update in *. cbn [fold_left fst snd] in *.
  destruct Hg as (H1 & H2 & H3 & H4 & H5 & H6 & H7).
  match type of H1 with
  | dict_get _ ?r = _ => set (result := r) in *
  end.
  rewrite (dict_set_present _ _ _ H1), (dict_set_present _ _ _ H2),
    (dict_set_present _ _ _ H3), (dict_set_present _ _ _ H4),
    (dict_set_present _ _ _ H5), (dict_set_present _ _ _ H6),
    (dict_set_present _ _ _ H7).
  reflexivity.
Qed.

Lemma enhance_flags_idempotent_witness :
  exists enhanced,
    Utils.enhance_flags (JObj Samples.sample_context_record)
      (JObj Samples.sample_basic_record) = Ok enhanced /\
    Utils.enhance_flags (JObj enhanced) (JObj Samples.sample_basic_record)
      = Ok enhanced.
Proof.
  eexists. split; [reflexivity|].
  apply (enhance_flags_idempotent (JObj Samples.sample_context_record)
           (JObj Samples.sample_basic_record) _ eq_refl).
Defined.
